(** * Verification of the CAN covert-channel decoder (time_decode.py,
      find_threshold.py, bit_candecoder.py)

    Shallow embedding of the Python scripts.  Python [str] values are
    modelled as [list ascii] ([pystr]); Python [int] values as [Z]; the
    float timestamps and gaps as exact rationals [Q] (rounding of IEEE
    doubles is not modelled).  Python exceptions that the code can raise
    are modelled with [option] (None = the exception escapes). *)

From Stdlib Require Import Ascii String.
From Stdlib Require Import List ZArith QArith Lia Bool Arith.
From Stdlib Require Import Sorting.Sorted Sorting.Permutation Lqa.
Import ListNotations.

Open Scope nat_scope.
Open Scope list_scope.

Definition pystr := list ascii.

(** A Python string literal. *)
Definition lit (s : string) : pystr := list_ascii_of_string s.

Definition Qlt_bool (x y : Q) : bool := negb (Qle_bool y x).

(** ** time_decode.py : bits_from_gaps *)

(** [bits_from_gaps(gaps, threshold, short_is)]: one symbol per gap. *)
Definition bits_from_gaps (gaps : list Q) (threshold : Q) (short_is : ascii) : pystr :=
  map (fun g => if Qlt_bool g threshold then short_is
                else if Ascii.eqb short_is "0"%char then "1"%char else "0"%char)
      gaps.

(** ** time_decode.py : pack_bits_to_bytes *)

(** [int(chunk, 2)] on a string of binary digits; any other character
    makes Python raise [ValueError] (None).  Python additionally accepts
    surrounding whitespace, a sign and underscores; the bit strings built
    by the decoder never contain those, so they are not modelled. *)
Definition bin_digit (c : ascii) : option Z :=
  if Ascii.eqb c "0"%char then Some 0%Z
  else if Ascii.eqb c "1"%char then Some 1%Z else None.

Fixpoint int_base2_from (acc : Z) (l : pystr) : option Z :=
  match l with
  | [] => Some acc
  | c :: r => match bin_digit c with
              | Some d => int_base2_from (2 * acc + d)%Z r
              | None => None
              end
  end.

Definition int_base2 (l : pystr) : option Z :=
  match l with [] => None | _ => int_base2_from 0%Z l end.

(** [chunk[::-1] if lsb_first else chunk] *)
Definition oriented (lsb_first : bool) (chunk : pystr) : pystr :=
  if lsb_first then rev chunk else chunk.

(** The loop [for i in range(0, len(s), 8)]; [fuel] bounds the number of
    iterations (it is started at [len(s)], which is always enough). *)
Fixpoint pack_loop (fuel : nat) (s : pystr) (lsb_first : bool) : option (list Z) :=
  match fuel with
  | O => Some []
  | S f =>
      match s with
      | [] => Some []
      | _ =>
        let chunk := firstn 8 s in
        if length chunk <? 8 then Some []
        else match int_base2 (oriented lsb_first chunk) with
             | None => None
             | Some v => option_map (cons v) (pack_loop f (skipn 8 s) lsb_first)
             end
      end
  end.

Definition pack_bits_to_bytes (bitstr : pystr) (offset : nat) (lsb_first : bool)
  : option (list Z) :=
  let s := skipn offset bitstr in
  pack_loop (length s) s lsb_first.

(** Spec-side reading of the Byte Packer contract: the consecutive full
    chunks of 8 symbols, and the unsigned value of a chunk of bits. *)
Fixpoint full_chunks8 (fuel : nat) (s : pystr) : list pystr :=
  match fuel with
  | O => []
  | S f => if length s <? 8 then [] else firstn 8 s :: full_chunks8 f (skipn 8 s)
  end.

Definition is_bit (c : ascii) : bool := Ascii.eqb c "0"%char || Ascii.eqb c "1"%char.


Definition bit_val (c : ascii) : Z := if Ascii.eqb c "1"%char then 1%Z else 0%Z.

Definition chunk_value (chunk : pystr) : Z :=
  fold_left (fun acc c => (2 * acc + bit_val c)%Z) chunk 0%Z.

(** ** time_decode.py : extract_flag *)

(** [chr(b) if 32 <= b < 127 else '.'] *)
Definition chr_or_dot (b : Z) : ascii :=
  if ((32 <=? b) && (b <? 127))%Z then ascii_of_nat (Z.to_nat b) else "."%char.

Definition decode_bytes (bs : list Z) : pystr := map chr_or_dot bs.

(** The ASCII bytes of a string (the encoding of a message). *)
Definition to_bytes (s : pystr) : list Z := map (fun c => Z.of_nat (nat_of_ascii c)) s.

(** [str.lower] on the ASCII characters the decoder produces. *)
Definition lower_char (c : ascii) : ascii :=
  let n := nat_of_ascii c in
  if (65 <=? n) && (n <=? 90) then ascii_of_nat (n + 32) else c.

Definition py_lower (s : pystr) : pystr := map lower_char s.

(** [s.startswith(p)] *)
Fixpoint startswith (s p : pystr) {struct p} : bool :=
  match p, s with
  | [], _ => true
  | c :: p', d :: s' => Ascii.eqb c d && startswith s' p'
  | _ :: _, [] => false
  end.

(** [c in s] for a one-character [c] *)
Definition py_contains (s : pystr) (c : ascii) : bool := existsb (Ascii.eqb c) s.

Fixpoint find_from (needle hay : pystr) (i : nat) : option nat :=
  match hay with
  | [] => match needle with [] => Some i | _ => None end
  | _ :: r => if startswith hay needle then Some i else find_from needle r (S i)
  end.

(** [hay.find(needle)]: first index, or [-1]. *)
Definition py_find (hay needle : pystr) : Z :=
  match find_from needle hay 0 with Some i => Z.of_nat i | None => (-1)%Z end.

(** The scanning loops of [extract_flag]: append every character that is
    not the placeholder '.', and stop right after the first '}'.  (The
    wrap-around loop writes it as [if char != '.': ...; if char == '}': break],
    the sequential loops as [if char == '}': ...; break elif char != '.': ...];
    both do this.) *)
Fixpoint collect_to_brace (l : pystr) : pystr :=
  match l with
  | [] => []
  | c :: r =>
      if Ascii.eqb c "}"%char then [c]
      else if Ascii.eqb c "."%char then collect_to_brace r
      else c :: collect_to_brace r
  end.

(** [for i in range(flag_pos, len(s)): if char != '.': ending += char] *)
Definition strip_placeholders (l : pystr) : pystr :=
  filter (fun c => negb (Ascii.eqb c "."%char)) l.

(** The sequential scan from [flag_pos] over at most [max_search]
    characters, and its validation. *)
Definition sequential_match (s : pystr) (flag_pos : nat) (max_search : nat) : option pystr :=
  let result := collect_to_brace (firstn max_search (skipn flag_pos s)) in
  if startswith result (lit "flag") && py_contains result "}"%char
  then Some result else None.

(** The forward attempt of [extract_flag] on the decoded string [s]
    (wrap-around or sequential); None when it does not return. *)
Definition forward_match (s : pystr) (max_search : nat) : option pystr :=
  let flag_pos := py_find (py_lower s) (lit "flag{") in
  let closing_pos := py_find s (lit "}") in
  if negb (flag_pos =? -1)%Z && negb (closing_pos =? -1)%Z then
    if (closing_pos <? flag_pos)%Z then
      let beginning :=
        collect_to_brace (firstn (Nat.min (Z.to_nat closing_pos + 1) (length s)) s) in
      let ending := strip_placeholders (skipn (Z.to_nat flag_pos) s) in
      let result := ending ++ beginning in
      if startswith result (lit "flag{") && py_contains result "}"%char
      then Some result else None
    else sequential_match s (Z.to_nat flag_pos) max_search
  else None.

(** The byte-reversed attempt of [extract_flag] on [s_reversed]. *)
Definition reversed_match (s_reversed : pystr) (max_search : nat) : option pystr :=
  let flag_pos := py_find (py_lower s_reversed) (lit "flag{") in
  if negb (flag_pos =? -1)%Z
  then sequential_match s_reversed (Z.to_nat flag_pos) max_search
  else None.

(** [extract_flag(bs, max_search=200)]; None is Python's [None]. *)
Definition extract_flag (bs : list Z) (max_search : nat) : option pystr :=
  let s := decode_bytes bs in
  match forward_match s max_search with
  | Some result => Some result
  | None =>
      let bs_reversed := rev bs in
      reversed_match (decode_bytes bs_reversed) max_search
  end.

Definition max_search_default : nat := 200.

(** A message character that is neither the placeholder nor the terminator. *)
Definition plain_char (c : ascii) : bool :=
  negb (Ascii.eqb c "."%char) && negb (Ascii.eqb c "}"%char).

(** Characters in [32, 126]. *)
Definition printable (c : ascii) : bool :=
  (32 <=? nat_of_ascii c) && (nat_of_ascii c <? 127).

(** ** time_decode.py : try_all_combinations *)

(** An entry [(short_is, offset, byte_order, lsb_first, flag)] of [results]. *)
Record flag_result := {
  r_short_is : ascii;
  r_offset : nat;
  r_byte_order : pystr;
  r_lsb_first : bool;
  r_flag : pystr
}.

Definition pystr_eqb (a b : pystr) : bool :=
  if list_eq_dec ascii_dec a b then true else false.

(** Truthiness of a Python string. *)
Definition py_truthy (s : pystr) : bool := match s with [] => false | _ => true end.

(** The body of the innermost loop, for one [(short_is, offset, lsb_first)];
    None is an exception escaping from [pack_bits_to_bytes]. *)
Definition try_one (gaps : list Q) (threshold : Q) (short_is : ascii) (offset : nat)
  (lsb_first : bool) (results : list flag_result) : option (list flag_result) :=
  let bitstr := bits_from_gaps gaps threshold short_is in
  match pack_bits_to_bytes bitstr offset lsb_first with
  | None => None
  | Some bs =>
      match extract_flag bs max_search_default with
      | Some flag =>
          if py_truthy flag && negb (existsb (pystr_eqb flag) (map r_flag results)) then
            let byte_order := if lsb_first then lit "LSB" else lit "MSB" in
            Some (results ++ [{| r_short_is := short_is; r_offset := offset;
                                 r_byte_order := byte_order; r_lsb_first := lsb_first;
                                 r_flag := flag |}])
          else Some results
      | None => Some results
      end
  end.

Definition try_step (gaps : list Q) (threshold : Q) (acc : option (list flag_result))
  (h : ascii * nat * bool) : option (list flag_result) :=
  match acc with
  | None => None
  | Some results => let '(short_is, offset, lsb_first) := h in
                    try_one gaps threshold short_is offset lsb_first results
  end.

(** [for short_is in ['0','1']: for offset in range(8): for lsb_first in [False, True]: ...] *)
Definition try_all_combinations (gaps : list Q) (threshold : Q) : option (list flag_result) :=
  fold_left (fun acc short_is =>
    fold_left (fun acc offset =>
      fold_left (fun acc lsb_first => try_step gaps threshold acc (short_is, offset, lsb_first))
        [false; true] acc)
      (seq 0 8) acc)
    ["0"%char; "1"%char] (Some []).

(** The 32 hypotheses in the order the loops visit them. *)
Definition sweep_hypotheses : list (ascii * nat * bool) :=
  flat_map (fun short_is =>
    flat_map (fun offset => map (fun lsb_first => (short_is, offset, lsb_first)) [false; true])
      (seq 0 8))
    ["0"%char; "1"%char].

(** ** find_threshold.py : find_gap_clusters, analyze_gaps *)

(** Python's [sorted] on numbers: a stable insertion sort (an element goes
    after the equal ones already placed). *)
Fixpoint insert_sorted (x : Q) (l : list Q) : list Q :=
  match l with
  | [] => [x]
  | y :: r => if Qlt_bool x y then x :: y :: r else y :: insert_sorted x r
  end.

Definition py_sorted (l : list Q) : list Q :=
  fold_left (fun acc x => insert_sorted x acc) l [].

(** [l[i]] with Python's negative indices; None is [IndexError]. *)
Definition py_index (l : list Q) (i : Z) : option Q :=
  if (i <? 0)%Z then
    let j := (Z.of_nat (length l) + i)%Z in
    if (j <? 0)%Z then None else nth_error l (Z.to_nat j)
  else nth_error l (Z.to_nat i).

(** [sorted_gaps[i] - sorted_gaps[i-1]] *)
Definition gap_jump (s : list Q) (i : nat) : Q := (nth i s 0 - nth (i - 1) s 0)%Q.

(** One iteration of [for i in range(1, len(sorted_gaps))] on
    [(max_jump, split_idx)]. *)
Definition jump_step (s : list Q) (st : Q * nat) (i : nat) : Q * nat :=
  let '(max_jump, split_idx) := st in
  let jump := gap_jump s i in
  if Qlt_bool max_jump jump then (jump, i) else (max_jump, split_idx).

(** [find_gap_clusters(gaps)]: None is an escaping [IndexError] (only for
    an empty [gaps]); [Some None] is [(None, None)]. *)
Definition find_gap_clusters (gaps : list Q) : option (option (list Q * list Q)) :=
  let sorted_gaps := py_sorted gaps in
  let '(max_jump, split_idx) :=
    fold_left (jump_step sorted_gaps) (seq 1 (length sorted_gaps - 1))
              (0%Q, length sorted_gaps / 2) in
  match py_index sorted_gaps (Z.of_nat split_idx - 1) with
  | None => None
  | Some prev =>
      if Qlt_bool (prev * 2)%Q max_jump
      then Some (Some (firstn split_idx sorted_gaps, skipn split_idx sorted_gaps))
      else Some None
  end.

(** [max(x :: l)] and [min(y :: l)]: the first extreme element. *)
Definition py_max (x : Q) (l : list Q) : Q :=
  fold_left (fun m y => if Qlt_bool m y then y else m) l x.

Definition py_min (x : Q) (l : list Q) : Q :=
  fold_left (fun m y => if Qlt_bool y m then y else m) l x.

(** [statistics.median] *)
Definition median (data : list Q) : Q :=
  let s := py_sorted data in
  let n := length s in
  if Nat.odd n then nth (n / 2) s 0%Q
  else ((nth (n / 2 - 1) s 0 + nth (n / 2) s 0) / 2)%Q.

(** [analyze_gaps(gaps)]: the returned threshold ([Some None] is Python's
    [None]); the printed statistics are left out, they feed nothing back.
    The outer None is an exception (unreachable: [gaps] is non-empty when
    [find_gap_clusters] runs). *)
Definition analyze_gaps (gaps : list Q) : option (option Q) :=
  match gaps with
  | [] => Some None
  | _ =>
      match find_gap_clusters gaps with
      | None => None
      | Some (Some (x :: c1, y :: c2)) => Some (Some ((py_max x c1 + py_min y c2) / 2)%Q)
      | Some _ => Some (Some (median gaps))
      end
  end.

(** ** time_decode.py / find_threshold.py : gaps_from_timestamps *)

(** [[ts[i] - ts[i-1] for i in range(1, len(ts))]] *)
Fixpoint gaps_from_timestamps (ts : list Q) : list Q :=
  match ts with
  | a :: ((b :: _) as r) => (b - a)%Q :: gaps_from_timestamps r
  | _ => []
  end.

(** ** time_decode.py : the [__main__] block after argument parsing

    The timestamps [ts] are what [parse_timestamps] returned (the log
    reader is an external collaborator).  The run is modelled as the list
    of reports it prints and its exit status; an exception escaping is
    [TdCrash] with status 1. *)
Inductive td_event :=
| TdParsing (logfile canid : pystr)
| TdNoTimestamps
| TdFoundFrames (n : nat)
| TdGaps (n : nat)
| TdThreshold (threshold : Q)
| TdTrying
| TdFlags (results : list flag_result)
| TdNoFlag
| TdSampleDecode (forward : pystr)
| TdCrash.

Definition time_decode_main (logfile canid : pystr) (ts : list Q) (threshold : Q)
  : list td_event * Z :=
  match ts with
  | [] => ([TdParsing logfile canid; TdNoTimestamps], 1%Z)
  | _ =>
      let gaps := gaps_from_timestamps ts in
      let pre := [TdParsing logfile canid; TdFoundFrames (length ts);
                  TdGaps (length gaps); TdThreshold threshold; TdTrying] in
      match try_all_combinations gaps threshold with
      | None => (pre ++ [TdCrash], 1%Z)
      | Some [] =>
          match pack_bits_to_bytes (bits_from_gaps gaps threshold "1"%char) 0 false with
          | Some bs => (pre ++ [TdNoFlag; TdSampleDecode (decode_bytes (firstn 100 bs))], 0%Z)
          | None => (pre ++ [TdNoFlag; TdCrash], 1%Z)
          end
      | Some results => (pre ++ [TdFlags results], 0%Z)
      end
  end.

(** ** find_threshold.py : the [__main__] block after argument parsing

    [FtStatistics n] stands for the statistics, percentiles and cluster
    report that [analyze_gaps] prints for its [n] gaps before it returns;
    [if threshold:] treats a threshold of [0.0] as missing. *)
Inductive ft_event :=
| FtAnalyzing (logfile canid : pystr)
| FtNoTimestamps
| FtFoundFrames (n : nat)
| FtGaps (n : nat)
| FtStatistics (n : nat)
| FtThreshold (threshold : Q)
| FtUndetermined
| FtCrash.

Definition find_threshold_main (logfile canid : pystr) (ts : list Q) : list ft_event * Z :=
  match ts with
  | [] => ([FtAnalyzing logfile canid; FtNoTimestamps], 1%Z)
  | _ =>
      let gaps := gaps_from_timestamps ts in
      let pre := [FtAnalyzing logfile canid; FtFoundFrames (length ts); FtGaps (length gaps)] in
      let stats := match gaps with [] => [] | _ => [FtStatistics (length gaps)] end in
      match analyze_gaps gaps with
      | None => (pre ++ stats ++ [FtCrash], 1%Z)
      | Some (Some threshold) =>
          if Qeq_bool threshold 0 then (pre ++ stats ++ [FtUndetermined], 0%Z)
          else (pre ++ stats ++ [FtThreshold threshold], 0%Z)
      | Some None => (pre ++ stats ++ [FtUndetermined], 0%Z)
      end
  end.

(** ** bit_candecoder.py *)

(** [c.isspace()] for the 8-bit characters: '\t'..'\r', '\x1c'..'\x1f',
    ' ', '\x85' and '\xa0'.  [str.strip()], [str.split()] and [int()] use
    this set. *)
Definition py_isspace (c : ascii) : bool :=
  let n := nat_of_ascii c in
  ((9 <=? n) && (n <=? 13)) || ((28 <=? n) && (n <=? 32)) || (n =? 133) || (n =? 160).

(** [d == '' or d.strip() == ''] *)
Definition is_empty_frame (d : pystr) : bool := forallb py_isspace d.

(** [d == 'R'] *)
Definition is_remote_frame (d : pystr) : bool := pystr_eqb d (lit "R").

(** [data and data != 'R' and data.strip() != ''] *)
Definition is_data_frame (d : pystr) : bool :=
  py_truthy d && negb (is_remote_frame d) && negb (is_empty_frame d).

(** A frame [(timestamp, data)] as collected by [main]. *)
Definition frame := (pystr * pystr)%type.

Definition remote_frames (frames : list frame) : nat :=
  length (filter (fun f => is_remote_frame (snd f)) frames).

Definition empty_frames (frames : list frame) : nat :=
  length (filter (fun f => is_empty_frame (snd f)) frames).

(** [len(frames) - remote_frames - empty_frames] *)
Definition data_frames (frames : list frame) : Z :=
  (Z.of_nat (length frames) - Z.of_nat (remote_frames frames) - Z.of_nat (empty_frames frames))%Z.

(** A hexadecimal digit. *)
Definition hex_digit (c : ascii) : option Z :=
  let n := nat_of_ascii c in
  if (48 <=? n) && (n <=? 57) then Some (Z.of_nat (n - 48))
  else if (97 <=? n) && (n <=? 102) then Some (Z.of_nat (n - 87))
  else if (65 <=? n) && (n <=? 70) then Some (Z.of_nat (n - 55))
  else None.

(** [int(data[i:i+2], 16)] on a two-character string; None is the
    [ValueError] caught by the bare [except].  Python accepts two hex
    digits, a sign followed by a digit, and a digit with one whitespace
    character before or after it; two whitespace characters, an
    underscore next to a single digit, or anything else is rejected. *)
Definition py_int16_pair (a b : ascii) : option Z :=
  match hex_digit a, hex_digit b with
  | Some x, Some y => Some (16 * x + y)%Z
  | None, Some y =>
      if Ascii.eqb a "+"%char then Some y
      else if Ascii.eqb a "-"%char then Some (- y)%Z
      else if py_isspace a then Some y
      else None
  | Some x, None => if py_isspace b then Some x else None
  | None, None => None
  end.

(** [str(byte_val & 1)] *)
Definition lsb_char (v : Z) : ascii :=
  if (Z.land v 1 =? 1)%Z then "1"%char else "0"%char.

(** [for i in range(0, len(data), 2): if i + 2 <= len(data): try: ...
    bits.append(str(int(data[i:i+2], 16) & 1)) except: pass] *)
Fixpoint pairs_bits (data : pystr) : pystr :=
  match data with
  | a :: b :: r =>
      match py_int16_pair a b with
      | Some v => lsb_char v :: pairs_bits r
      | None => pairs_bits r
      end
  | _ => []
  end.

(** [if len(data) % 2 == 1: data = '0' + data] *)
Definition pad (data : pystr) : pystr :=
  if Nat.odd (length data) then "0"%char :: data else data.

(** The bits Method 1 collects from one frame. *)
Definition frame_lsb_bits (f : frame) : pystr :=
  let '(_, data) := f in
  if is_data_frame data then pairs_bits (pad data) else [].

Definition method1_bits (frames : list frame) : pystr := flat_map frame_lsb_bits frames.

(** METHOD 1 (LSB of data bytes): [Some bit_string] when it is appended
    to [methods]. *)
Definition method1 (frames : list frame) : option pystr :=
  if (0 <? data_frames frames)%Z then
    let bits := method1_bits frames in
    if py_truthy bits then Some bits else None
  else None.

(** METHODS 2 and 3: one bit per non-data frame, [r_bit] for 'R' and
    [e_bit] for an empty frame. *)
Definition presence_bits (r_bit e_bit : ascii) (frames : list frame) : pystr :=
  flat_map (fun f : frame => let '(_, data) := f in
    if is_data_frame data then []
    else if is_remote_frame data then [r_bit] else [e_bit]) frames.

Definition method_presence (name : pystr) (r_bit e_bit : ascii) (frames : list frame)
  : list (pystr * pystr) :=
  if (0 <? remote_frames frames) && (0 <? empty_frames frames) then
    let bits := presence_bits r_bit e_bit frames in
    if py_truthy bits then [(name, bits)] else []
  else [].

(** METHOD 4: remote frames skipped, an empty frame is '0', a data frame
    gives the LSBs of its bytes. *)
Definition method4_bits (frames : list frame) : pystr :=
  flat_map (fun f : frame => let '(_, data) := f in
    if is_remote_frame data then []
    else if is_empty_frame data then ["0"%char]
    else pairs_bits (pad data)) frames.

Definition collect_methods (frames : list frame) : list (pystr * pystr) :=
  match method1 frames with
  | Some bits => [(lit "Method 1: LSB from data bytes", bits)]
  | None => []
  end ++
  method_presence (lit "Method 2: R=1, Empty=0") "1"%char "0"%char frames ++
  method_presence (lit "Method 3: R=0, Empty=1") "0"%char "1"%char frames ++
  (if 0 <? empty_frames frames then
     let bits := method4_bits frames in
     if py_truthy bits then [(lit "Method 4: Empty=0x00, extract LSB from all", bits)] else []
   else []).

(** [decode_bits_to_string(bit_string, reverse_each_byte, stop_at_brace)];
    [fuel] bounds the iterations (started at [len(bit_string)]). *)
Fixpoint decode_loop (fuel : nat) (s : pystr) (reverse_each_byte stop_at_brace : bool)
  : pystr :=
  match fuel with
  | O => []
  | S f =>
      if length s <? 8 then []
      else
        match int_base2 (oriented reverse_each_byte (firstn 8 s)) with
        | None => "?"%char :: decode_loop f (skipn 8 s) reverse_each_byte stop_at_brace
        | Some v =>
            if (v =? 125)%Z && stop_at_brace then ["}"%char]
            else if ((32 <=? v) && (v <=? 126))%Z then
              ascii_of_nat (Z.to_nat v) :: decode_loop f (skipn 8 s) reverse_each_byte stop_at_brace
            else if stop_at_brace then []
            else "."%char :: decode_loop f (skipn 8 s) reverse_each_byte stop_at_brace
        end
  end.

Definition decode_bits_to_string (bit_string : pystr) (reverse_each_byte stop_at_brace : bool)
  : pystr :=
  decode_loop (length bit_string) bit_string reverse_each_byte stop_at_brace.

(** [format(ord(c), '08b')] *)
Definition format08b (c : ascii) : pystr :=
  map (fun k => if Nat.testbit (nat_of_ascii c) (7 - k) then "1"%char else "0"%char) (seq 0 8).

(** [search_for_flag(bit_string, method_name)]; None is [(None, -1)]. *)
Definition search_for_flag (bit_string : pystr) : option (pystr * Z) :=
  let target := flat_map format08b (lit "flag") in
  let msb :=
    match find_from target bit_string 0 with
    | Some pos =>
        let result := decode_bits_to_string (skipn pos bit_string) false true in
        if startswith result (lit "flag") && py_contains result "}"%char
        then Some (result, Z.of_nat pos) else None
    | None => None
    end in
  match msb with
  | Some r => Some r
  | None =>
      let result_lsb := decode_bits_to_string bit_string true false in
      match find_from (lit "flag{") (py_lower result_lsb) 0 with
      | Some flag_pos =>
          match find_from (lit "}") (skipn flag_pos result_lsb) flag_pos with
          | Some end_pos =>
              Some (firstn (end_pos + 1 - flag_pos) (skipn flag_pos result_lsb),
                    Z.of_nat (flag_pos * 8))
          | None => None
          end
      | None => None
      end
  end.

(** The reports of [main()]. *)
Inductive bc_event :=
| BcHeader (filename can_id : pystr)
| BcNoFrames (can_id : pystr)
| BcTotal (n : nat)
| BcCounts (remote empty data : Z)
| BcSample (timestamp data : pystr)
| BcTrying
| BcMethod (name : pystr) (nbits : nat) (first80 : pystr)
| BcFound (pos : Z) (flag : pystr)
| BcFoundReversed (pos : Z) (flag : pystr)
| BcPreview (text : pystr)
| BcSummary (found_flags : list (pystr * pystr)).

(** [flag and flag.startswith('flag')] *)
Definition flag_ok (flag : pystr) : bool := py_truthy flag && startswith flag (lit "flag").

(** One iteration of [for method_name, bit_string in methods]: its
    reports and what it appends to [found_flags]. *)
Definition try_method (m : pystr * pystr) : list bc_event * list (pystr * pystr) :=
  let '(name, bits) := m in
  let head := BcMethod name (length bits) (firstn 80 bits) in
  let preview :=
    ([head; BcPreview (firstn 60 (decode_bits_to_string
                                   (firstn (Nat.min 400 (length bits)) bits) false false))], []) in
  let reversed :=
    match search_for_flag (rev bits) with
    | Some (flag, pos) =>
        if flag_ok flag then ([head; BcFoundReversed pos flag], [(name ++ lit " (reversed)", flag)])
        else preview
    | None => preview
    end in
  match search_for_flag bits with
  | Some (flag, pos) =>
      if flag_ok flag then ([head; BcFound pos flag], [(name, flag)]) else reversed
  | None => reversed
  end.

(** [main()] after the frames of [can_id] have been collected from the
    log (the log reader is an external collaborator). *)
Definition bit_candecoder_main (filename can_id : pystr) (frames : list frame)
  : list bc_event * Z :=
  let header := [BcHeader filename can_id] in
  match frames with
  | [] => (header ++ [BcNoFrames can_id], 1%Z)
  | _ =>
      let dfr := data_frames frames in
      let samples :=
        if (0 <? dfr)%Z then
          map (fun f : frame => BcSample (fst f) (snd f))
              (firstn 5 (filter (fun f : frame => is_data_frame (snd f)) frames))
        else [] in
      let tries := map try_method (collect_methods frames) in
      (header ++ [BcTotal (length frames);
                  BcCounts (Z.of_nat (remote_frames frames)) (Z.of_nat (empty_frames frames)) dfr]
              ++ samples ++ [BcTrying] ++ flat_map fst tries
              ++ [BcSummary (flat_map snd tries)], 0%Z)
  end.



(** A character encoder [enc] that [int(..., 2)] reads back, in the bit
    order [lsb], as the character's code. *)
Definition enc_ok (enc : ascii -> pystr) (lsb : bool) : Prop :=
  forall c, length (enc c) = 8 /\
    int_base2 (oriented lsb (enc c)) = Some (Z.of_nat (nat_of_ascii c)).

(** A character [int(x, 16)] accepts as a hexadecimal digit. *)
Definition is_hex (c : ascii) : bool :=
  match hex_digit c with Some _ => true | None => false end.

(** * Proofs *)

(** ** Byte Packer *)

Lemma int_base2_from_bits (l : pystr) (acc : Z) :
  forallb is_bit l = true ->
  int_base2_from acc l = Some (fold_left (fun a c => (2 * a + bit_val c)%Z) l acc).
Proof.
  revert acc; induction l as [|c r IH]; intros acc Hb; [reflexivity|].
  simpl in Hb; apply andb_true_iff in Hb as [Hc Hr].
  unfold is_bit in Hc; simpl.
  apply orb_true_iff in Hc as [Hc|Hc]; apply Ascii.eqb_eq in Hc; subst c;
    simpl; rewrite IH by exact Hr; reflexivity.
Qed.

Lemma int_base2_chunk (chunk : pystr) :
  chunk <> [] -> forallb is_bit chunk = true ->
  int_base2 chunk = Some (chunk_value chunk).
Proof.
  intros Hne Hb; destruct chunk as [|c r]; [congruence|].
  unfold int_base2, chunk_value; apply int_base2_from_bits; exact Hb.
Qed.

Lemma forallb_firstn {A} (f : A -> bool) n (l : list A) :
  forallb f l = true -> forallb f (firstn n l) = true.
Proof.
  revert l; induction n as [|n IH]; intros [|x l] H; simpl in *; auto.
  apply andb_true_iff in H as [H1 H2]; rewrite H1; simpl; auto.
Qed.

Lemma forallb_skipn {A} (f : A -> bool) n (l : list A) :
  forallb f l = true -> forallb f (skipn n l) = true.
Proof.
  revert l; induction n as [|n IH]; intros [|x l] H; simpl in *; auto.
  apply andb_true_iff in H as [H1 H2]; auto.
Qed.

Lemma forallb_rev {A} (f : A -> bool) (l : list A) :
  forallb f l = true -> forallb f (rev l) = true.
Proof.
  intros H; apply forallb_forall; intros x Hx; apply in_rev in Hx.
  exact (proj1 (forallb_forall f l) H x Hx).
Qed.

Lemma pack_loop_cons (f : nat) (s : pystr) (lsb : bool) :
  s <> [] ->
  pack_loop (S f) s lsb =
    (let chunk := firstn 8 s in
     if length chunk <? 8 then Some []
     else match int_base2 (oriented lsb chunk) with
          | None => None
          | Some v => option_map (cons v) (pack_loop f (skipn 8 s) lsb)
          end).
Proof. destruct s; [congruence|reflexivity]. Qed.

Lemma pack_loop_spec (lsb : bool) (f : nat) (s : pystr) :
  forallb is_bit s = true ->
  exists out, pack_loop f s lsb = Some out /\
    length out = Nat.min f (length s / 8) /\
    forall k, k < length out ->
      nth_error out k = Some (chunk_value (oriented lsb (firstn 8 (skipn (8 * k) s)))).
Proof.
  revert s; induction f as [|f IH]; intros s Hb.
  - exists []; simpl; split; [reflexivity|split; [reflexivity|intros; lia]].
  - destruct s as [|c r] eqn:Es.
    + exists []; simpl; split; [reflexivity|split; [reflexivity|intros; lia]].
    + rewrite <- Es in Hb |- *. rewrite pack_loop_cons by (rewrite Es; discriminate). cbv zeta.
      destruct (Nat.ltb_spec (length (firstn 8 s)) 8) as [Hlt|Hge].
      * exists []; split; [reflexivity|].
        rewrite length_firstn in Hlt.
        assert (length s < 8) by lia.
        rewrite Nat.div_small by lia; simpl; split; [lia|intros; lia].
      * rewrite length_firstn in Hge.
        assert (Hlen : 8 <= length s) by lia.
        assert (Hck : forallb is_bit (oriented lsb (firstn 8 s)) = true).
        { unfold oriented; destruct lsb; [apply forallb_rev|]; apply forallb_firstn; exact Hb. }
        assert (Hne : oriented lsb (firstn 8 s) <> []).
        { intros E; apply (f_equal (@length ascii)) in E; unfold oriented in E.
          destruct lsb; [rewrite length_rev in E|]; rewrite length_firstn in E; change (length (@nil ascii)) with 0 in E; lia. }
        rewrite (int_base2_chunk _ Hne Hck).
        destruct (IH (skipn 8 s) (forallb_skipn _ 8 _ Hb)) as [out [Ho [Hl Hn]]].
        rewrite Ho; cbn [option_map].
        exists (chunk_value (oriented lsb (firstn 8 s)) :: out).
        split; [reflexivity|split].
        -- cbn [length]; rewrite Hl, length_skipn.
           assert (Hd : length s / 8 = S ((length s - 8) / 8)).
           { replace (length s) with ((length s - 8) + 1 * 8) at 1 by lia.
             rewrite Nat.div_add by lia. lia. }
           rewrite Hd. reflexivity.
        -- intros [|k] Hk; cbn [nth_error]; [reflexivity|].
           rewrite Hn by (cbn [length] in Hk; lia).
           rewrite skipn_skipn. replace (8 * k + 8) with (8 * S k) by lia. reflexivity.
Qed.

(** C1 (amended).  For a bitstream of '0'/'1' symbols and an offset in
    [0, 8), [pack_bits_to_bytes] succeeds and returns
    [floor(max(0, len(bitstream) - offset) / 8)] bytes; byte [k] is the
    unsigned value of the 8 bits starting at [offset + 8k], read in reverse
    exactly when [lsb_first]; no trailing partial chunk is used. *)
Theorem pack_bits_to_bytes_contract (bitstr : pystr) (offset : nat) (lsb_first : bool) :
  forallb is_bit bitstr = true -> offset < 8 ->
  exists out, pack_bits_to_bytes bitstr offset lsb_first = Some out /\
    length out = (length bitstr - offset) / 8 /\
    forall k, k < length out ->
      nth_error out k =
        Some (chunk_value (oriented lsb_first (firstn 8 (skipn (offset + 8 * k) bitstr)))).
Proof.
  intros Hb _.
  destruct (pack_loop_spec lsb_first (length (skipn offset bitstr)) (skipn offset bitstr)
              (forallb_skipn _ _ _ Hb)) as [out [Ho [Hl Hn]]].
  exists out; split; [exact Ho|split].
  - rewrite Hl, length_skipn. apply Nat.min_r. apply Nat.Div0.div_le_upper_bound; lia.
  - intros k Hk; rewrite Hn by exact Hk. rewrite skipn_skipn, Nat.add_comm. reflexivity.
Qed.

Lemma pack_bits_to_bytes_contract_witness :
  (forallb is_bit (lit "0110011001") = true /\ 2 < 8) /\
  exists out, pack_bits_to_bytes (lit "0110011001") 2 true = Some out /\
    length out = (length (lit "0110011001") - 2) / 8 /\
    forall k, k < length out ->
      nth_error out k =
        Some (chunk_value (oriented true (firstn 8 (skipn (2 + 8 * k) (lit "0110011001"))))).
Proof.
  split; [split; [reflexivity|lia]|].
  apply (pack_bits_to_bytes_contract (lit "0110011001") 2 true); [reflexivity|lia].
Defined.

(** C1 (counterexample).  The length formula
    [len(output) = floor((len(bitstream) - offset) / 8)] fails when the
    offset exceeds the bitstream length: the empty bitstream with offset 1
    packs to no byte, while [floor(-1/8) = -1]. *)
Lemma pack_length_formula_fails :
  ~ (forall (bitstr : pystr) (offset : nat) (lsb_first : bool),
        forallb is_bit bitstr = true -> offset < 8 ->
        exists out, pack_bits_to_bytes bitstr offset lsb_first = Some out /\
          Z.of_nat (length out) = ((Z.of_nat (length bitstr) - Z.of_nat offset) / 8)%Z).
Proof.
  intros H.
  destruct (H [] 1 false eq_refl ltac:(lia)) as [out [Ho Hl]].
  vm_compute in Ho; injection Ho as <-.
  vm_compute in Hl; discriminate Hl.
Qed.

(** ** Timing adapter *)

(** C10.  The two polarities of [bits_from_gaps] give complementary
    bitstreams: same length (one symbol per gap), and a position holds '0'
    under polarity '0' exactly when it holds '1' under polarity '1' (and
    vice versa). *)
Theorem bits_from_gaps_polarities_complementary (gaps : list Q) (threshold : Q) :
  length (bits_from_gaps gaps threshold "0"%char) = length gaps /\
  length (bits_from_gaps gaps threshold "1"%char) = length gaps /\
  forall i,
    (nth_error (bits_from_gaps gaps threshold "0"%char) i = Some "0"%char <->
     nth_error (bits_from_gaps gaps threshold "1"%char) i = Some "1"%char) /\
    (nth_error (bits_from_gaps gaps threshold "0"%char) i = Some "1"%char <->
     nth_error (bits_from_gaps gaps threshold "1"%char) i = Some "0"%char).
Proof.
  unfold bits_from_gaps; rewrite !length_map; split; [reflexivity|split; [reflexivity|]].
  intros i; rewrite !nth_error_map.
  destruct (nth_error gaps i) as [g|]; simpl; [|split; split; discriminate].
  destruct (Qlt_bool g threshold); simpl;
    split; split; intros H; first [reflexivity | discriminate H].
Qed.

Example extract_wrap_example :
  extract_flag (to_bytes (lit "c}flag{ab")) 200 = Some (lit "flag{abc}").
Proof. vm_compute. reflexivity. Qed.
Example extract_rev_example :
  extract_flag (to_bytes (rev (lit "flag{abc}"))) 200 = Some (lit "flag{abc}").
Proof. vm_compute. reflexivity. Qed.
Example extract_case_example :
  extract_flag (to_bytes (lit "FLAG{x}")) 200 = None.
Proof. vm_compute. reflexivity. Qed.

(** ** Marker Recognizer: general lemmas *)

Lemma decode_to_bytes (s : pystr) :
  forallb printable s = true -> decode_bytes (to_bytes s) = s.
Proof.
  induction s as [|c r IH]; intros H; [reflexivity|].
  simpl in H; apply andb_true_iff in H as [Hc Hr].
  unfold printable in Hc; apply andb_true_iff in Hc as [H1 H2].
  apply Nat.leb_le in H1; apply Nat.ltb_lt in H2.
  cbn [to_bytes decode_bytes map] in *; f_equal; [|exact (IH Hr)].
  unfold chr_or_dot.
  replace ((32 <=? Z.of_nat (nat_of_ascii c)) && (Z.of_nat (nat_of_ascii c) <? 127))%Z
    with true by (symmetry; apply andb_true_iff; split; [apply Z.leb_le|apply Z.ltb_lt]; lia).
  rewrite Nat2Z.id; apply ascii_nat_embedding.
Qed.

Lemma Z_of_nat_neq_m1 (n : nat) : (Z.of_nat n =? -1)%Z = false.
Proof. apply Z.eqb_neq; lia. Qed.

Lemma startswith_app_self (p s : pystr) : startswith (p ++ s) p = true.
Proof. induction p as [|c p IH]; [reflexivity|]. simpl; rewrite Ascii.eqb_refl; exact IH. Qed.

Lemma find_from_app_skip (needle A B : pystr) (i : nat) :
  (forall q, q < length A -> startswith (skipn q (A ++ B)) needle = false) ->
  find_from needle (A ++ B) i = find_from needle B (i + length A).
Proof.
  revert i; induction A as [|a A IH]; intros i H.
  - simpl; rewrite Nat.add_0_r; reflexivity.
  - cbn [app find_from].
    assert (H0 := H 0 ltac:(simpl; lia)); cbn [skipn app] in H0; rewrite H0.
    rewrite IH; [f_equal; simpl; lia|].
    intros q Hq; apply (H (S q)); simpl; lia.
Qed.

Lemma find_from_head (needle B : pystr) (i : nat) :
  startswith B needle = true -> find_from needle B i = Some i.
Proof.
  intros H; destruct B as [|b B].
  - destruct needle; [reflexivity|discriminate H].
  - simpl; rewrite H; reflexivity.
Qed.

Lemma find_from_none_skipn (needle hay : pystr) (i : nat) :
  find_from needle hay i = None -> forall q, startswith (skipn q hay) needle = false.
Proof.
  revert i; induction hay as [|c r IH]; intros i H q.
  - simpl in H; destruct needle; [discriminate H|].
    destruct q; reflexivity.
  - simpl in H; destruct (startswith (c :: r) needle) eqn:E; [discriminate H|].
    destruct q as [|q]; [exact E|]. simpl; exact (IH _ H q).
Qed.

Lemma find_from_all_false (needle hay : pystr) (i : nat) :
  (forall q, startswith (skipn q hay) needle = false) -> find_from needle hay i = None.
Proof.
  revert i; induction hay as [|c r IH]; intros i H.
  - specialize (H 0); simpl in *; destruct needle; [discriminate H|reflexivity].
  - assert (H0 := H 0); cbn [skipn] in H0.
    simpl; rewrite H0; apply IH; intros q; exact (H (S q)).
Qed.

(** A needle without '}' that matches across a '}' already matches before it. *)
Lemma startswith_before_brace (needle X R : pystr) :
  existsb (Ascii.eqb "}"%char) needle = false ->
  startswith (X ++ "}"%char :: R) needle = true -> startswith X needle = true.
Proof.
  revert X; induction needle as [|c n IH]; intros X Hn H; [destruct X; reflexivity|].
  cbn [existsb] in Hn; apply orb_false_iff in Hn as [Hc Hn].
  destruct X as [|x X].
  - cbn [app startswith] in H; apply andb_true_iff in H as [H _].
    apply Ascii.eqb_eq in H; subst c; rewrite Ascii.eqb_refl in Hc; discriminate Hc.
  - cbn [app startswith] in *; apply andb_true_iff in H as [H1 H2]; rewrite H1.
    exact (IH X Hn H2).
Qed.

Lemma find_char_first (c : ascii) (A B : pystr) (i : nat) :
  existsb (Ascii.eqb c) A = false ->
  find_from [c] (A ++ c :: B) i = Some (i + length A).
Proof.
  revert i; induction A as [|a A IH]; intros i H.
  - simpl; rewrite Ascii.eqb_refl, Nat.add_0_r; reflexivity.
  - simpl in H; apply orb_false_iff in H as [Ha H].
    cbn [app find_from startswith]; rewrite Ha; simpl.
    rewrite IH by exact H; f_equal; lia.
Qed.

Lemma collect_plain (l R : pystr) :
  forallb plain_char l = true -> collect_to_brace (l ++ "}"%char :: R) = l ++ ["}"%char].
Proof.
  induction l as [|c l IH]; intros H; [reflexivity|].
  simpl in H; apply andb_true_iff in H as [Hc H].
  unfold plain_char in Hc; apply andb_true_iff in Hc as [H1 H2].
  apply negb_true_iff in H1, H2.
  simpl; rewrite H1, H2, IH by exact H; reflexivity.
Qed.

Lemma strip_plain (l : pystr) :
  forallb plain_char l = true -> strip_placeholders l = l.
Proof.
  induction l as [|c l IH]; intros H; [reflexivity|].
  simpl in H; apply andb_true_iff in H as [Hc H].
  unfold plain_char in Hc; apply andb_true_iff in Hc as [H1 _].
  unfold strip_placeholders in *; simpl; rewrite H1; simpl; f_equal; exact (IH H).
Qed.

Lemma plain_no_brace (l : pystr) :
  forallb plain_char l = true -> existsb (Ascii.eqb "}"%char) l = false.
Proof.
  induction l as [|c l IH]; intros H; [reflexivity|].
  simpl in H; apply andb_true_iff in H as [Hc H].
  unfold plain_char in Hc; apply andb_true_iff in Hc as [_ H2].
  apply negb_true_iff in H2; rewrite Ascii.eqb_sym in H2.
  cbn [existsb]; rewrite H2, IH by exact H; reflexivity.
Qed.

Lemma py_lower_app (A B : pystr) : py_lower (A ++ B) = py_lower A ++ py_lower B.
Proof. apply map_app. Qed.

Lemma forallb_plain_printable_lit_flag :
  forallb printable (lit "flag{") = true /\ forallb plain_char (lit "flag{") = true.
Proof. split; reflexivity. Qed.

(** ** Marker Recognizer: wrap-around recovery *)

(** C3 (amended).  Let a message be [flag{] followed by a body and the
    terminator, whose body characters are printable and are neither the
    placeholder '.' nor '}'.  Split it after its prefix into
    [head = "flag{" ++ h] and [tail = t ++ "}"], where [t] holds no
    case-insensitive copy of [flag{].  On the buffer [tail ++ head],
    [extract_flag] takes the wrap-around branch and returns the message. *)
Theorem extract_flag_wrap_around (h t : pystr) :
  forallb printable (h ++ t) = true ->
  forallb plain_char (h ++ t) = true ->
  find_from (lit "flag{") (py_lower t) 0 = None ->
  extract_flag (to_bytes ((t ++ lit "}") ++ (lit "flag{" ++ h))) max_search_default
  = Some ((lit "flag{" ++ h) ++ (t ++ lit "}")).
Proof.
  intros Hp Hc Hf.
  rewrite forallb_app in Hp, Hc.
  apply andb_true_iff in Hp as [Hph Hpt]; apply andb_true_iff in Hc as [Hch Hct].
  set (s := (t ++ lit "}") ++ (lit "flag{" ++ h)).
  assert (Es : s = t ++ "}"%char :: (lit "flag{" ++ h)) by (unfold s; rewrite <- app_assoc; reflexivity).
  unfold extract_flag.
  rewrite decode_to_bytes
    by (rewrite Es, forallb_app; simpl; rewrite Hpt, Hph; reflexivity).
  unfold forward_match.
  assert (Hclose : py_find s (lit "}") = Z.of_nat (length t)).
  { unfold py_find; rewrite Es; change (lit "}") with ["}"%char].
    rewrite find_char_first by (apply plain_no_brace; exact Hct). reflexivity. }
  assert (Hflag : py_find (py_lower s) (lit "flag{") = Z.of_nat (length t + 1)).
  { unfold py_find; rewrite Es, py_lower_app.
    change (py_lower ("}"%char :: lit "flag{" ++ h)) with (["}"%char] ++ lit "flag{" ++ py_lower h).
    rewrite app_assoc, find_from_app_skip.
    - rewrite find_from_head by apply startswith_app_self.
      unfold py_lower; rewrite length_app, length_map; simpl; lia.
    - intros q Hq; unfold py_lower in Hq; rewrite length_app, length_map in Hq; simpl in Hq.
      rewrite <- app_assoc; cbn [app].
      rewrite skipn_app.
      replace (q - length (py_lower t)) with 0 by (unfold py_lower; rewrite length_map; lia).
      cbn [skipn].
      destruct (startswith (skipn q (py_lower t) ++ "}"%char :: lit "flag{" ++ py_lower h)
                           (lit "flag{")) eqn:E; [|reflexivity].
      apply startswith_before_brace in E; [|reflexivity].
      rewrite (find_from_none_skipn _ _ _ Hf q) in E; discriminate E. }
  rewrite Hclose, Hflag, !Z_of_nat_neq_m1; cbn [negb andb].
  replace ((Z.of_nat (length t) <? Z.of_nat (length t + 1))%Z) with true
    by (symmetry; apply Z.ltb_lt; lia).
  rewrite !Nat2Z.id.
  assert (Hmin : Nat.min (length t + 1) (length s) = length t + 1)
    by (rewrite Es, length_app; simpl; lia).
  rewrite Hmin, Es.
  rewrite firstn_app, firstn_all2 by lia.
  replace (length t + 1 - length t) with 1 by lia. cbn [firstn].
  rewrite collect_plain by exact Hct.
  rewrite skipn_app, skipn_all2 by lia.
  replace (length t + 1 - length t) with 1 by lia. cbn [skipn app].
  rewrite strip_plain by (rewrite forallb_app, Hch; reflexivity).
  assert (Hin : py_contains ((lit "flag{" ++ h) ++ t ++ ["}"%char]) "}"%char = true).
  { unfold py_contains; apply existsb_exists; exists "}"%char; split; [|apply Ascii.eqb_refl].
    apply in_or_app; right; apply in_or_app; right; left; reflexivity. }
  rewrite Hin, <- app_assoc, startswith_app_self. reflexivity.
Qed.

Lemma extract_flag_wrap_around_witness :
  (forallb printable (lit "ab" ++ lit "cd") = true /\
   forallb plain_char (lit "ab" ++ lit "cd") = true /\
   find_from (lit "flag{") (py_lower (lit "cd")) 0 = None) /\
  extract_flag (to_bytes ((lit "cd" ++ lit "}") ++ (lit "flag{" ++ lit "ab"))) max_search_default
  = Some ((lit "flag{" ++ lit "ab") ++ (lit "cd" ++ lit "}")).
Proof.
  split; [split; [reflexivity|split; reflexivity]|].
  apply (extract_flag_wrap_around (lit "ab") (lit "cd")); reflexivity.
Defined.

(** C3 (counterexample).  Two valid messages split mid-message that are not
    reconstructed: "flag{x}" split inside its prefix as "fl" + "ag{x}"
    gives no match, and "flag{a.b}" split as "flag{a" + ".b}" comes back
    as "flag{ab}" (a real '.' is taken for the placeholder). *)
Lemma extract_flag_wrap_around_fails :
  extract_flag (to_bytes (lit "ag{x}" ++ lit "fl")) max_search_default = None /\
  extract_flag (to_bytes (lit ".b}" ++ lit "flag{a")) max_search_default
    = Some (lit "flag{ab}") /\
  lit "flag{ab}" <> lit "flag{a" ++ lit ".b}".
Proof. vm_compute. split; [reflexivity|split; [reflexivity|discriminate]]. Qed.

(** ** Marker Recognizer: reversal recovery *)

Lemma forward_match_no_prefix (s : pystr) (n : nat) :
  find_from (lit "flag{") (py_lower s) 0 = None -> forward_match s n = None.
Proof. intros H; unfold forward_match, py_find; rewrite H; reflexivity. Qed.

Lemma forallb_printable_rev (s : pystr) :
  forallb printable s = true -> forallb printable (rev s) = true.
Proof. apply forallb_rev. Qed.

(** C4 (amended).  Let [msg = "flag{" ++ body ++ "}"] with a body of
    printable characters other than '.' and '}', at most 200 characters in
    all, whose reversal holds no case-insensitive [flag{].  Then
    [extract_flag] recovers [msg] from its reversed bytes.  In general the
    reversed-sequence attempt is made only when the forward attempt on the
    original sequence finds nothing, and a forward match is returned as is. *)
Theorem extract_flag_reversed (body : pystr) :
  forallb printable body = true ->
  forallb plain_char body = true ->
  length (lit "flag{" ++ body ++ lit "}") <= max_search_default ->
  find_from (lit "flag{") (py_lower (rev (lit "flag{" ++ body ++ lit "}"))) 0 = None ->
  extract_flag (to_bytes (rev (lit "flag{" ++ body ++ lit "}"))) max_search_default
    = Some (lit "flag{" ++ body ++ lit "}") /\
  (forall bs r, forward_match (decode_bytes bs) max_search_default = Some r ->
     extract_flag bs max_search_default = Some r) /\
  (forall bs, forward_match (decode_bytes bs) max_search_default = None ->
     extract_flag bs max_search_default
     = reversed_match (decode_bytes (rev bs)) max_search_default).
Proof.
  intros Hp Hc Hlen Hf.
  split; [|split; intros bs; unfold extract_flag;
           [intros r Hr; rewrite Hr; reflexivity | intros Hn; rewrite Hn; reflexivity]].
  set (msg := lit "flag{" ++ body ++ lit "}") in *.
  assert (Hpm : forallb printable msg = true)
    by (unfold msg; rewrite !forallb_app, Hp; reflexivity).
  assert (Hcm : forallb plain_char (lit "flag{" ++ body) = true)
    by (rewrite forallb_app, Hc; reflexivity).
  unfold extract_flag.
  rewrite decode_to_bytes by (apply forallb_printable_rev; exact Hpm).
  rewrite forward_match_no_prefix by exact Hf.
  unfold to_bytes; rewrite <- map_rev, rev_involutive; fold (to_bytes msg).
  rewrite decode_to_bytes by exact Hpm.
  unfold reversed_match, py_find.
  assert (Hl : py_lower msg = lit "flag{" ++ py_lower body ++ lit "}")
    by (unfold msg, py_lower; rewrite !map_app; reflexivity).
  rewrite Hl, (find_from_head (lit "flag{") (lit "flag{" ++ py_lower body ++ lit "}") 0)
    by apply startswith_app_self.
  cbn [Z.of_nat Z.eqb negb Z.to_nat].
  unfold sequential_match; cbn [skipn].
  rewrite firstn_all2 by exact Hlen.
  assert (Em : msg = (lit "flag{" ++ body) ++ "}"%char :: []) by (unfold msg; rewrite <- app_assoc; reflexivity).
  rewrite Em, collect_plain by exact Hcm.
  assert (Hin : py_contains ((lit "flag{" ++ body) ++ ["}"%char]) "}"%char = true).
  { unfold py_contains; apply existsb_exists; exists "}"%char; split; [|apply Ascii.eqb_refl].
    apply in_or_app; right; left; reflexivity. }
  rewrite Hin. reflexivity.
Qed.

Lemma extract_flag_reversed_witness :
  (forallb printable (lit "abc") = true /\ forallb plain_char (lit "abc") = true /\
   length (lit "flag{" ++ lit "abc" ++ lit "}") <= max_search_default /\
   find_from (lit "flag{") (py_lower (rev (lit "flag{" ++ lit "abc" ++ lit "}"))) 0 = None) /\
  extract_flag (to_bytes (rev (lit "flag{" ++ lit "abc" ++ lit "}"))) max_search_default
    = Some (lit "flag{" ++ lit "abc" ++ lit "}") /\
  (forall bs r, forward_match (decode_bytes bs) max_search_default = Some r ->
     extract_flag bs max_search_default = Some r) /\
  (forall bs, forward_match (decode_bytes bs) max_search_default = None ->
     extract_flag bs max_search_default
     = reversed_match (decode_bytes (rev bs)) max_search_default).
Proof.
  split; [split; [reflexivity|split; [reflexivity|split; [vm_compute; lia|reflexivity]]]|].
  apply (extract_flag_reversed (lit "abc")); [reflexivity|reflexivity|vm_compute; lia|reflexivity].
Defined.

(** C4 (counterexample).  Reversed valid messages that are not recovered:
    a 201-character message (its '}' lies beyond the 200-character
    lookahead window) gives no match, and for "flag{galfx}" the reversed
    bytes "}xflag{galf" already hold a forward (wrap-around) match, which
    is returned instead: "flag{galf}". *)
Lemma extract_flag_reversed_fails :
  extract_flag (to_bytes (rev (lit "flag{" ++ repeat "a"%char 195 ++ lit "}")))
    max_search_default = None /\
  extract_flag (to_bytes (rev (lit "flag{galfx}"))) max_search_default
    = Some (lit "flag{galf}").
Proof. split; vm_compute; reflexivity. Qed.

(** ** Marker Recognizer: case of the prefix and of the output *)

Lemma startswith_app_long (X Y needle : pystr) :
  length needle <= length X -> startswith (X ++ Y) needle = startswith X needle.
Proof.
  revert X; induction needle as [|c n IH]; intros X H; [reflexivity|].
  destruct X as [|x X]; [simpl in H; lia|].
  cbn [app startswith]; simpl in H; rewrite IH by lia; reflexivity.
Qed.

Lemma find_from_ge (needle X : pystr) (i k : nat) :
  find_from needle X i = Some k -> i <= k.
Proof.
  revert i; induction X as [|y X IH]; intros i H; simpl in H.
  - destruct needle; [injection H as <-; lia|discriminate H].
  - destruct (startswith (y :: X) needle); [injection H as <-; lia|].
    specialize (IH _ H); lia.
Qed.

Lemma find_from_app_some (needle X Y : pystr) (i k : nat) :
  find_from needle X i = Some k -> k - i + length needle <= length X ->
  find_from needle (X ++ Y) i = Some k.
Proof.
  revert i; induction X as [|x X IH]; intros i H Hk.
  - simpl in H; destruct needle; [|discriminate H].
    injection H as <-; destruct Y; [reflexivity|reflexivity].
  - cbn [find_from] in H; cbn [app find_from].
    destruct (startswith (x :: X) needle) eqn:E.
    + injection H as <-.
      replace (x :: X ++ Y) with ((x :: X) ++ Y) by reflexivity.
      rewrite startswith_app_long by (simpl in Hk |- *; lia). rewrite E; reflexivity.
    + assert (Hki : S i <= k) by exact (find_from_ge _ _ _ _ H).
      replace (x :: X ++ Y) with ((x :: X) ++ Y) by reflexivity.
      rewrite startswith_app_long by (simpl in Hk |- *; lia). rewrite E.
      apply IH; [exact H|simpl in Hk; lia].
Qed.

Lemma collect_no_brace (l R : pystr) :
  existsb (Ascii.eqb "}"%char) l = false ->
  collect_to_brace (l ++ "}"%char :: R) = strip_placeholders l ++ ["}"%char].
Proof.
  induction l as [|c l IH]; intros H; [reflexivity|].
  cbn [existsb] in H; apply orb_false_iff in H as [Hc H].
  rewrite Ascii.eqb_sym in Hc.
  cbn [app collect_to_brace]; rewrite Hc.
  unfold strip_placeholders; cbn [filter].
  destruct (Ascii.eqb c "."%char); cbn [negb]; rewrite IH by exact H; reflexivity.
Qed.

Lemma strip_app (l1 l2 : pystr) :
  strip_placeholders (l1 ++ l2) = strip_placeholders l1 ++ strip_placeholders l2.
Proof. apply filter_app. Qed.

(** C6 (amended).  The recognizer copies the characters it returns in
    their original case.  When the decoded buffer is
    [A ++ ("flag{" ++ B ++ "}") ++ C] with the prefix written in lowercase,
    no '}' in [A] or [B], no case-insensitive copy of the prefix starting
    before it, and the part from the prefix to the '}' within the
    200-character window, [extract_flag] returns
    ["flag{" ++ B ++ "}"] with only the placeholders '.' removed from [B]
    (upper-case letters of [B] stay upper-case). *)
Theorem extract_flag_preserves_case (bs : list Z) (A B C : pystr) :
  decode_bytes bs = A ++ (lit "flag{" ++ B ++ lit "}") ++ C ->
  existsb (Ascii.eqb "}"%char) (A ++ B) = false ->
  find_from (lit "flag{") (py_lower (A ++ lit "flag{")) 0 = Some (length A) ->
  length (lit "flag{" ++ B ++ lit "}") <= max_search_default ->
  extract_flag bs max_search_default
    = Some (lit "flag{" ++ strip_placeholders B ++ lit "}").
Proof.
  intros Hs Hb Hf Hlen.
  rewrite existsb_app in Hb; apply orb_false_iff in Hb as [HbA HbB].
  unfold extract_flag, forward_match; rewrite Hs.
  assert (Hflag : py_find (py_lower (A ++ (lit "flag{" ++ B ++ lit "}") ++ C)) (lit "flag{")
                  = Z.of_nat (length A)).
  { unfold py_find.
    replace (py_lower (A ++ (lit "flag{" ++ B ++ lit "}") ++ C))
      with (py_lower (A ++ lit "flag{") ++ py_lower (B ++ lit "}" ++ C))
      by (unfold py_lower; rewrite <- !map_app, <- !app_assoc; reflexivity).
    rewrite (find_from_app_some _ _ _ 0 (length A) Hf); [reflexivity|].
    unfold py_lower; rewrite length_map, length_app; simpl; lia. }
  assert (Hclose : py_find (A ++ (lit "flag{" ++ B ++ lit "}") ++ C) (lit "}")
                   = Z.of_nat (length (A ++ lit "flag{" ++ B))).
  { unfold py_find; change (lit "}") with ["}"%char].
    replace (A ++ (lit "flag{" ++ B ++ ["}"%char]) ++ C)
      with ((A ++ lit "flag{" ++ B) ++ "}"%char :: C)
      by (rewrite <- !app_assoc; reflexivity).
    rewrite find_char_first; [reflexivity|].
    rewrite !existsb_app, HbA, HbB; reflexivity. }
  rewrite Hflag, Hclose, !Z_of_nat_neq_m1; cbn [negb andb].
  replace ((Z.of_nat (length (A ++ lit "flag{" ++ B)) <? Z.of_nat (length A))%Z)
    with false by (symmetry; apply Z.ltb_ge; rewrite !length_app; lia).
  rewrite Nat2Z.id.
  unfold sequential_match.
  rewrite skipn_app, skipn_all, Nat.sub_diag; cbn [app skipn].
  rewrite firstn_app, firstn_all2 by exact Hlen.
  replace (lit "flag{" ++ B ++ lit "}") with ((lit "flag{" ++ B) ++ ["}"%char])
    by (rewrite <- app_assoc; reflexivity).
  rewrite <- app_assoc; cbn [app].
  rewrite collect_no_brace by (rewrite existsb_app, HbB; reflexivity).
  rewrite strip_app.
  assert (Hin : py_contains ((strip_placeholders (lit "flag{") ++ strip_placeholders B)
                             ++ ["}"%char]) "}"%char = true).
  { unfold py_contains; apply existsb_exists; exists "}"%char; split; [|apply Ascii.eqb_refl].
    apply in_or_app; right; left; reflexivity. }
  rewrite Hin. reflexivity.
Qed.

Lemma extract_flag_preserves_case_witness :
  (decode_bytes (to_bytes (lit "xY") ++ [5%Z] ++ to_bytes (lit "flag{Ab.C}zz"))
     = lit "xY." ++ (lit "flag{" ++ lit "Ab.C" ++ lit "}") ++ lit "zz" /\
   existsb (Ascii.eqb "}"%char) (lit "xY." ++ lit "Ab.C") = false /\
   find_from (lit "flag{") (py_lower (lit "xY." ++ lit "flag{")) 0 = Some (length (lit "xY.")) /\
   length (lit "flag{" ++ lit "Ab.C" ++ lit "}") <= max_search_default) /\
  extract_flag (to_bytes (lit "xY") ++ [5%Z] ++ to_bytes (lit "flag{Ab.C}zz")) max_search_default
    = Some (lit "flag{" ++ strip_placeholders (lit "Ab.C") ++ lit "}").
Proof.
  split; [split; [vm_compute; reflexivity|split; [reflexivity|split; [vm_compute; reflexivity|vm_compute; lia]]]|].
  apply (extract_flag_preserves_case _ (lit "xY.") (lit "Ab.C") (lit "zz"));
    [vm_compute; reflexivity|reflexivity|vm_compute; reflexivity|vm_compute; lia].
Defined.

(** C6 (counterexample).  A prefix written in upper case is located by the
    case-insensitive search but the match is then rejected ("FLAG{x}"
    gives no match), and a '}' before the prefix sends the recognizer to
    the wrap-around branch ("}flag{a}" gives "flag{a}}", not the enclosed
    "flag{a}"). *)
Lemma extract_flag_case_fails :
  extract_flag (to_bytes (lit "FLAG{x}")) max_search_default = None /\
  extract_flag (to_bytes (lit "}flag{a}")) max_search_default = Some (lit "flag{a}}").
Proof. split; vm_compute; reflexivity. Qed.

(** ** Sweep Driver *)

Lemma lit_flag_nonempty : lit "flag" <> [].
Proof. vm_compute; intros H; discriminate H. Qed.

Lemma lit_flag_brace_nonempty : lit "flag{" <> [].
Proof. vm_compute; intros H; discriminate H. Qed.

Lemma startswith_nonempty (s p : pystr) : p <> [] -> startswith s p = true -> s <> [].
Proof. intros Hp H ->; destruct p; [congruence|discriminate H]. Qed.

Lemma sequential_match_nonempty (s : pystr) (pos n : nat) (f : pystr) :
  sequential_match s pos n = Some f -> f <> [].
Proof.
  unfold sequential_match; cbv zeta.
  destruct (startswith _ (lit "flag") && _) eqn:E; [|discriminate].
  intros H; injection H as <-. apply andb_true_iff in E as [E _].
  exact (startswith_nonempty _ _ lit_flag_nonempty E).
Qed.

Lemma extract_flag_nonempty (bs : list Z) (n : nat) (f : pystr) :
  extract_flag bs n = Some f -> f <> [].
Proof.
  unfold extract_flag, reversed_match, forward_match; cbv zeta.
  destruct (negb (py_find (py_lower (decode_bytes bs)) (lit "flag{") =? -1)%Z
            && negb (py_find (decode_bytes bs) (lit "}") =? -1)%Z).
  - destruct (_ <? _)%Z.
    + match goal with |- context [if ?b then Some ?r else None] =>
        destruct b eqn:E end.
      * intros H; injection H as <-. apply andb_true_iff in E as [E _].
        exact (startswith_nonempty _ _ lit_flag_brace_nonempty E).
      * destruct (negb _); [apply sequential_match_nonempty|discriminate].
    + destruct (sequential_match _ _ _) eqn:E.
      * intros H; injection H as <-; exact (sequential_match_nonempty _ _ _ _ E).
      * destruct (negb _); [apply sequential_match_nonempty|discriminate].
  - destruct (negb _); [apply sequential_match_nonempty|discriminate].
Qed.

Lemma bits_from_gaps_bits (gaps : list Q) (threshold : Q) (p : ascii) :
  In p ["0"%char; "1"%char] -> forallb is_bit (bits_from_gaps gaps threshold p) = true.
Proof.
  intros Hp; unfold bits_from_gaps; apply forallb_forall; intros c Hc.
  apply in_map_iff in Hc as [g [<- _]].
  destruct Hp as [<-|[<-|[]]]; destruct (Qlt_bool g threshold); reflexivity.
Qed.

Lemma pack_bits_ok (b : pystr) (o : nat) (l : bool) :
  forallb is_bit b = true -> exists out, pack_bits_to_bytes b o l = Some out.
Proof.
  intros H; unfold pack_bits_to_bytes.
  destruct (pack_loop_spec l (length (skipn o b)) (skipn o b) (forallb_skipn _ _ _ H))
    as [out [Ho _]].
  exists out; exact Ho.
Qed.

Lemma pystr_eqb_true (a b : pystr) : pystr_eqb a b = true <-> a = b.
Proof. unfold pystr_eqb; destruct (list_eq_dec ascii_dec a b); split; congruence. Qed.

Lemma existsb_pystr_eqb (f : pystr) (l : list pystr) :
  existsb (pystr_eqb f) l = true <-> In f l.
Proof.
  rewrite existsb_exists; split.
  - intros [x [Hx E]]; apply pystr_eqb_true in E; subst x; exact Hx.
  - intros Hf; exists f; split; [exact Hf|apply pystr_eqb_true; reflexivity].
Qed.

Lemma try_step_spec (gaps : list Q) (threshold : Q) (p : ascii) (o : nat) (l : bool)
  (bs : list Z) (res0 : list flag_result) :
  pack_bits_to_bytes (bits_from_gaps gaps threshold p) o l = Some bs ->
  NoDup (map r_flag res0) ->
  exists res1, try_step gaps threshold (Some res0) (p, o, l) = Some res1 /\
    NoDup (map r_flag res1) /\
    (forall r, In r res0 -> In r res1) /\
    (forall r, In r res1 -> In r res0 \/
       (r_short_is r = p /\ r_offset r = o /\ r_lsb_first r = l /\
        extract_flag bs max_search_default = Some (r_flag r))) /\
    (forall f, extract_flag bs max_search_default = Some f -> In f (map r_flag res1)).
Proof.
  intros Hbs Hnd; cbn [try_step]; unfold try_one; rewrite Hbs.
  destruct (extract_flag bs max_search_default) as [f|] eqn:Ef.
  - assert (Hne : f <> []) by exact (extract_flag_nonempty _ _ _ Ef).
    assert (Ht : py_truthy f = true) by (destruct f; [congruence|reflexivity]).
    rewrite Ht; cbn [andb].
    destruct (existsb (pystr_eqb f) (map r_flag res0)) eqn:Ex; cbn [negb].
    + exists res0; split; [reflexivity|split; [exact Hnd|split; [auto|split; [auto|]]]].
      intros f' Hf'; injection Hf' as <-; apply existsb_pystr_eqb; exact Ex.
    + eexists; split; [reflexivity|split; [|split; [|split]]].
      * rewrite map_app; apply NoDup_app; [exact Hnd|constructor; [intros []|constructor]|].
        intros a Ha [<-|[]]. apply (proj2 (existsb_pystr_eqb f _)) in Ha. congruence.
      * intros r Hr; apply in_or_app; left; exact Hr.
      * intros r Hr; apply in_app_or in Hr as [Hr|[<-|[]]]; [left; exact Hr|right].
        simpl; repeat split; reflexivity.
      * intros f' Hf'; injection Hf' as <-; rewrite map_app; apply in_or_app; right; left.
        reflexivity.
  - exists res0; split; [reflexivity|split; [exact Hnd|split; [auto|split; [auto|]]]].
    intros f' Hf'; discriminate Hf'.
Qed.

Lemma sweep_fold_spec (gaps : list Q) (threshold : Q) (hs : list (ascii * nat * bool))
  (res0 : list flag_result) :
  (forall p o l, In (p, o, l) hs -> In p ["0"%char; "1"%char]) ->
  NoDup (map r_flag res0) ->
  exists res, fold_left (try_step gaps threshold) hs (Some res0) = Some res /\
    NoDup (map r_flag res) /\
    (forall r, In r res0 -> In r res) /\
    (forall r, In r res -> In r res0 \/
       (In (r_short_is r, r_offset r, r_lsb_first r) hs /\
        exists bs, pack_bits_to_bytes (bits_from_gaps gaps threshold (r_short_is r))
                     (r_offset r) (r_lsb_first r) = Some bs /\
                   extract_flag bs max_search_default = Some (r_flag r))) /\
    (forall p o l bs f, In (p, o, l) hs ->
       pack_bits_to_bytes (bits_from_gaps gaps threshold p) o l = Some bs ->
       extract_flag bs max_search_default = Some f -> In f (map r_flag res)).
Proof.
  revert res0; induction hs as [|[[p o] l] hs IH]; intros res0 Hhs Hnd.
  - exists res0; split; [reflexivity|split; [exact Hnd|split; [auto|split]]].
    + intros r Hr; left; exact Hr.
    + intros p o l bs f [].
  - destruct (pack_bits_ok (bits_from_gaps gaps threshold p) o l
                (bits_from_gaps_bits _ _ _ (Hhs p o l (or_introl eq_refl)))) as [bs Hbs].
    destruct (try_step_spec gaps threshold p o l bs res0 Hbs Hnd)
      as [res1 [Hs1 [Hnd1 [Hsub1 [Hsnd1 Hcmp1]]]]].
    cbn [fold_left]; rewrite Hs1.
    destruct (IH res1 (fun p' o' l' H => Hhs p' o' l' (or_intror H)) Hnd1)
      as [res [Hf [Hnd' [Hsub' [Hsnd' Hcmp']]]]].
    exists res; split; [exact Hf|split; [exact Hnd'|split; [|split]]].
    + intros r Hr; apply Hsub', Hsub1, Hr.
    + intros r Hr; destruct (Hsnd' r Hr) as [Hr1|[Hin Hex]].
      * destruct (Hsnd1 r Hr1) as [Hr0|[E1 [E2 [E3 E4]]]]; [left; exact Hr0|right].
        split; [left; rewrite E1, E2, E3; reflexivity|].
        exists bs; rewrite E1, E2, E3; split; [exact Hbs|exact E4].
      * right; split; [right; exact Hin|exact Hex].
    + intros p' o' l' bs' f [E|Hin] Hp He.
      * injection E as <- <- <-. rewrite Hbs in Hp; injection Hp as <-.
        destruct (proj1 (in_map_iff _ _ _) (Hcmp1 f He)) as [r [Er Hr]].
        apply in_map_iff; exists r; split; [exact Er|apply Hsub', Hr].
      * exact (Hcmp' p' o' l' bs' f Hin Hp He).
Qed.

Lemma sweep_hypotheses_in (p : ascii) (o : nat) (l : bool) :
  In (p, o, l) sweep_hypotheses <-> In p ["0"%char; "1"%char] /\ o < 8.
Proof.
  unfold sweep_hypotheses; rewrite in_flat_map; split.
  - intros [p' [Hp' Hx]]; rewrite in_flat_map in Hx.
    destruct Hx as [o' [Ho' Hx]]; apply in_map_iff in Hx as [l' [E _]].
    injection E as <- <- <-; split; [exact Hp'|apply in_seq in Ho'; lia].
  - intros [Hp Ho]; exists p; split; [exact Hp|]; rewrite in_flat_map.
    exists o; split; [apply in_seq; lia|].
    apply in_map_iff; exists l; split; [reflexivity|destruct l; simpl; auto].
Qed.

Lemma try_all_combinations_fold (gaps : list Q) (threshold : Q) :
  try_all_combinations gaps threshold
  = fold_left (try_step gaps threshold) sweep_hypotheses (Some []).
Proof. reflexivity. Qed.

(** C5.  [try_all_combinations] walks all 32 hypotheses (polarity in
    {'0','1'}, offset in [0, 8), bit order MSB/LSB first), never raises, and
    does not stop at the first success: every hypothesis whose decoding
    yields a message contributes that message to the results, every entry
    comes from the hypothesis it records, and no two entries carry the same
    message. *)
Theorem try_all_combinations_sweep (gaps : list Q) (threshold : Q) :
  try_all_combinations gaps threshold
    = fold_left (try_step gaps threshold) sweep_hypotheses (Some []) /\
  length sweep_hypotheses = 32 /\
  (forall p o l, In (p, o, l) sweep_hypotheses <-> In p ["0"%char; "1"%char] /\ o < 8) /\
  exists results, try_all_combinations gaps threshold = Some results /\
    NoDup (map r_flag results) /\
    (forall p o l bs f, In p ["0"%char; "1"%char] -> o < 8 ->
       pack_bits_to_bytes (bits_from_gaps gaps threshold p) o l = Some bs ->
       extract_flag bs max_search_default = Some f -> In f (map r_flag results)) /\
    (forall r, In r results ->
       In (r_short_is r) ["0"%char; "1"%char] /\ r_offset r < 8 /\
       exists bs, pack_bits_to_bytes (bits_from_gaps gaps threshold (r_short_is r))
                    (r_offset r) (r_lsb_first r) = Some bs /\
                  extract_flag bs max_search_default = Some (r_flag r)).
Proof.
  split; [apply try_all_combinations_fold|split; [reflexivity|split; [apply sweep_hypotheses_in|]]].
  destruct (sweep_fold_spec gaps threshold sweep_hypotheses []
              (fun p o l H => proj1 (proj1 (sweep_hypotheses_in p o l) H)) (NoDup_nil _))
    as [res [Hf [Hnd [_ [Hsnd Hcmp]]]]].
  exists res; rewrite try_all_combinations_fold; split; [exact Hf|split; [exact Hnd|split]].
  - intros p o l bs f Hp Ho; apply Hcmp; apply sweep_hypotheses_in; split; assumption.
  - intros r Hr; destruct (Hsnd r Hr) as [[]|[Hin Hex]].
    apply sweep_hypotheses_in in Hin as [Hp Ho]; split; [exact Hp|split; [exact Ho|exact Hex]].
Qed.

(** ** Gap Analyzer *)

Lemma Qlt_bool_iff (x y : Q) : Qlt_bool x y = true <-> (x < y)%Q.
Proof.
  unfold Qlt_bool; rewrite negb_true_iff; split.
  - intros H; apply Qnot_le_lt; intros H'; apply Qle_bool_iff in H'; congruence.
  - intros H; destruct (Qle_bool y x) eqn:E; [|reflexivity].
    apply Qle_bool_iff in E; exfalso; apply (Qlt_not_le _ _ H E).
Qed.

Lemma Qlt_bool_false (x y : Q) : Qlt_bool x y = false -> (y <= x)%Q.
Proof.
  intros H; apply Qnot_lt_le; intros H'; apply Qlt_bool_iff in H'; congruence.
Qed.

Lemma in_insert_sorted (x z : Q) (l : list Q) :
  In z (insert_sorted x l) <-> z = x \/ In z l.
Proof.
  induction l as [|y l IH]; simpl; [firstorder congruence|].
  destruct (Qlt_bool x y); simpl; [firstorder congruence|rewrite IH; firstorder congruence].
Qed.

Lemma insert_sorted_sorted (x : Q) (l : list Q) :
  StronglySorted Qle l -> StronglySorted Qle (insert_sorted x l).
Proof.
  induction l as [|y l IH]; intros H; simpl.
  - repeat constructor.
  - inversion H as [|? ? Hl Hy]; subst.
    destruct (Qlt_bool x y) eqn:E.
    + apply Qlt_bool_iff in E.
      constructor; [exact H|constructor; [apply Qlt_le_weak, E|]].
      eapply Forall_impl; [|exact Hy]; intros a Ha; apply Qle_trans with y;
        [apply Qlt_le_weak, E|exact Ha].
    + apply Qlt_bool_false in E.
      constructor; [apply IH, Hl|].
      apply Forall_forall; intros a Ha; apply in_insert_sorted in Ha as [->|Ha]; [exact E|].
      exact (proj1 (Forall_forall _ _) Hy a Ha).
Qed.

Lemma py_sorted_spec (l : list Q) :
  StronglySorted Qle (py_sorted l) /\ length (py_sorted l) = length l /\
  (forall z, In z (py_sorted l) <-> In z l).
Proof.
  unfold py_sorted.
  assert (G : forall acc, StronglySorted Qle acc ->
    StronglySorted Qle (fold_left (fun acc x => insert_sorted x acc) l acc) /\
    length (fold_left (fun acc x => insert_sorted x acc) l acc) = length l + length acc /\
    (forall z, In z (fold_left (fun acc x => insert_sorted x acc) l acc) <-> In z l \/ In z acc)).
  { induction l as [|x l IH]; intros acc Hacc; simpl.
    - split; [exact Hacc|split; [reflexivity|tauto]].
    - destruct (IH (insert_sorted x acc) (insert_sorted_sorted x acc Hacc)) as [H1 [H2 H3]].
      split; [exact H1|split].
      + rewrite H2.
        assert (E : length (insert_sorted x acc) = S (length acc)).
        { clear; induction acc as [|y acc IH]; simpl; [reflexivity|].
          destruct (Qlt_bool x y); simpl; [reflexivity|rewrite IH; reflexivity]. }
        rewrite E; lia.
      + intros z; rewrite H3, in_insert_sorted; intuition. }
  destruct (G [] (SSorted_nil _)) as [H1 [H2 H3]].
  split; [exact H1|split; [rewrite H2; simpl; lia|intros z; rewrite H3; simpl; tauto]].
Qed.

Lemma sorted_nth_mono (s : list Q) (a b : nat) :
  StronglySorted Qle s -> a <= b -> b < length s -> (nth a s 0 <= nth b s 0)%Q.
Proof.
  revert a b; induction s as [|x s IH]; intros a b Hs Hab Hb; [simpl in Hb; lia|].
  inversion Hs as [|? ? Hs' Hx]; subst.
  destruct a as [|a], b as [|b]; simpl.
  - apply Qle_refl.
  - apply (proj1 (Forall_forall _ _) Hx); apply nth_In; simpl in Hb; lia.
  - lia.
  - apply IH; [exact Hs'|lia|simpl in Hb; lia].
Qed.

Lemma py_max_spec (x : Q) (l : list Q) :
  In (py_max x l) (x :: l) /\ forall z, In z (x :: l) -> (z <= py_max x l)%Q.
Proof.
  unfold py_max; revert x; induction l as [|y l IH]; intros x; simpl.
  - split; [left; reflexivity|intros z [->|[]]; apply Qle_refl].
  - destruct (Qlt_bool x y) eqn:E.
    + destruct (IH y) as [H1 H2]; split; [simpl in H1; tauto|].
      apply Qlt_bool_iff in E.
      intros z [<-|[<-|Hz]].
      * apply Qle_trans with y; [apply Qlt_le_weak, E|apply H2; left; reflexivity].
      * apply H2; left; reflexivity.
      * apply H2; right; exact Hz.
    + destruct (IH x) as [H1 H2]; split; [simpl in H1; tauto|].
      apply Qlt_bool_false in E.
      intros z [<-|[<-|Hz]].
      * apply H2; left; reflexivity.
      * apply Qle_trans with x; [exact E|apply H2; left; reflexivity].
      * apply H2; right; exact Hz.
Qed.

Lemma py_min_spec (x : Q) (l : list Q) :
  In (py_min x l) (x :: l) /\ forall z, In z (x :: l) -> (py_min x l <= z)%Q.
Proof.
  unfold py_min; revert x; induction l as [|y l IH]; intros x; simpl.
  - split; [left; reflexivity|intros z [->|[]]; apply Qle_refl].
  - destruct (Qlt_bool y x) eqn:E.
    + destruct (IH y) as [H1 H2]; split; [simpl in H1; tauto|].
      apply Qlt_bool_iff in E.
      intros z [<-|[<-|Hz]].
      * apply Qle_trans with y; [apply H2; left; reflexivity|apply Qlt_le_weak, E].
      * apply H2; left; reflexivity.
      * apply H2; right; exact Hz.
    + destruct (IH x) as [H1 H2]; split; [simpl in H1; tauto|].
      apply Qlt_bool_false in E.
      intros z [<-|[<-|Hz]].
      * apply H2; left; reflexivity.
      * apply Qle_trans with x; [apply H2; left; reflexivity|exact E].
      * apply H2; right; exact Hz.
Qed.

Lemma jump_fold_inv (s : list Q) (l pre : list nat) (st : Q * nat) :
  (forall j, In j pre -> (gap_jump s j <= fst st)%Q) ->
  ((fst st = 0%Q /\ snd st = length s / 2) \/
   (In (snd st) pre /\ fst st = gap_jump s (snd st) /\ (0 < fst st)%Q)) ->
  let st' := fold_left (jump_step s) l st in
  (forall j, In j (pre ++ l) -> (gap_jump s j <= fst st')%Q) /\
  ((fst st' = 0%Q /\ snd st' = length s / 2) \/
   (In (snd st') (pre ++ l) /\ fst st' = gap_jump s (snd st') /\ (0 < fst st')%Q)).
Proof.
  revert pre st; induction l as [|a l IH]; intros pre st H1 H2; cbv zeta.
  - rewrite app_nil_r; simpl; split; assumption.
  - replace (pre ++ a :: l) with ((pre ++ [a]) ++ l) by (rewrite <- app_assoc; reflexivity).
    cbn [fold_left]; apply IH.
    + destruct st as [mj si]; unfold jump_step; simpl in H1 |- *.
      destruct (Qlt_bool mj (gap_jump s a)) eqn:E; simpl.
      * apply Qlt_bool_iff in E.
        intros j Hj; apply in_app_or in Hj as [Hj|[<-|[]]]; [|apply Qle_refl].
        apply Qle_trans with mj; [exact (H1 j Hj)|apply Qlt_le_weak, E].
      * apply Qlt_bool_false in E.
        intros j Hj; apply in_app_or in Hj as [Hj|[<-|[]]]; [exact (H1 j Hj)|exact E].
    + destruct st as [mj si]; unfold jump_step; simpl in H2 |- *.
      destruct (Qlt_bool mj (gap_jump s a)) eqn:E; simpl.
      * apply Qlt_bool_iff in E; right; split; [apply in_or_app; right; left; reflexivity|].
        split; [reflexivity|].
        destruct H2 as [[-> _]|[_ [_ H]]]; [exact E|apply Qlt_trans with mj; assumption].
      * destruct H2 as [H|[Hin H]]; [left; exact H|right; split; [|exact H]].
        apply in_or_app; left; exact Hin.
Qed.

Lemma py_index_in (l : list Q) (i : Z) (v : Q) : py_index l i = Some v -> In v l.
Proof.
  unfold py_index; destruct (i <? 0)%Z; [destruct (_ <? 0)%Z; [discriminate|]|];
    apply nth_error_In.
Qed.

Lemma py_index_nonneg (l : list Q) (n : nat) :
  py_index l (Z.of_nat n) = nth_error l n.
Proof.
  unfold py_index; replace (Z.of_nat n <? 0)%Z with false by (symmetry; apply Z.ltb_ge; lia).
  rewrite Nat2Z.id; reflexivity.
Qed.

Lemma find_gap_clusters_accepts (gaps c1 c2 : list Q) :
  Forall (fun g => 0 <= g)%Q gaps ->
  find_gap_clusters gaps = Some (Some (c1, c2)) ->
  exists i, 1 <= i < length (py_sorted gaps) /\
    (forall j, 1 <= j < length (py_sorted gaps) ->
       (gap_jump (py_sorted gaps) j <= gap_jump (py_sorted gaps) i)%Q) /\
    (nth (i - 1) (py_sorted gaps) 0 * 2 < gap_jump (py_sorted gaps) i)%Q /\
    c1 = firstn i (py_sorted gaps) /\ c2 = skipn i (py_sorted gaps).
Proof.
  intros Hnn; unfold find_gap_clusters.
  set (s := py_sorted gaps).
  destruct (jump_fold_inv s (seq 1 (length s - 1)) [] (0%Q, length s / 2)
              ltac:(intros j []) ltac:(left; split; reflexivity)) as [H1 H2].
  cbn [app] in H1, H2.
  destruct (fold_left (jump_step s) (seq 1 (length s - 1)) (0%Q, length s / 2)) as [mj si].
  simpl in H1, H2.
  destruct (py_index s (Z.of_nat si - 1)) as [q|] eqn:Ei; [|discriminate].
  destruct (Qlt_bool (q * 2) mj) eqn:Ea; [|discriminate].
  intros H; injection H as <- <-.
  apply Qlt_bool_iff in Ea.
  assert (Hq : (0 <= q)%Q).
  { apply py_index_in in Ei; unfold s in Ei; apply (proj2 (proj2 (py_sorted_spec gaps))) in Ei.
    exact (proj1 (Forall_forall _ _) Hnn q Ei). }
  destruct H2 as [[-> _]|[Hin [Emj _]]]; [exfalso; lra|].
  apply in_seq in Hin.
  exists si; split; [lia|split; [|split; [|split; reflexivity]]].
  - intros j Hj; rewrite <- Emj; apply H1; apply in_seq; lia.
  - replace (Z.of_nat si - 1)%Z with (Z.of_nat (si - 1)) in Ei by lia.
    rewrite py_index_nonneg in Ei.
    rewrite (nth_error_nth _ _ 0%Q Ei), <- Emj; exact Ea.
Qed.

(** C2.  Part 1: for every non-empty list of gaps (gaps are non-negative,
    as in the data model) on which [find_gap_clusters] accepts a split, the
    split index [i] of the sorted gaps maximises the jump
    [sorted[i] - sorted[i-1]], that jump exceeds [2 * sorted[i-1]], the
    clusters are [sorted[:i]] and [sorted[i:]], [max(Cluster1) = sorted[i-1]],
    [min(Cluster2) = sorted[i]], [analyze_gaps] returns
    [(max(Cluster1) + min(Cluster2)) / 2], and that threshold lies strictly
    between [max(Cluster1)] and [min(Cluster2)].  Part 2: for ten gaps of
    0.001 and ten of 0.010 the split is accepted and the threshold is
    0.0055. *)
Theorem analyze_gaps_bimodal_threshold :
  (forall gaps c1 c2,
     gaps <> [] -> Forall (fun g => 0 <= g)%Q gaps ->
     find_gap_clusters gaps = Some (Some (c1, c2)) ->
     exists i x r1 y r2,
       1 <= i < length (py_sorted gaps) /\
       (forall j, 1 <= j < length (py_sorted gaps) ->
          (gap_jump (py_sorted gaps) j <= gap_jump (py_sorted gaps) i)%Q) /\
       (2 * nth (i - 1) (py_sorted gaps) 0 < gap_jump (py_sorted gaps) i)%Q /\
       c1 = firstn i (py_sorted gaps) /\ c2 = skipn i (py_sorted gaps) /\
       c1 = x :: r1 /\ c2 = y :: r2 /\
       (py_max x r1 == nth (i - 1) (py_sorted gaps) 0)%Q /\
       (py_min y r2 == nth i (py_sorted gaps) 0)%Q /\
       analyze_gaps gaps = Some (Some ((py_max x r1 + py_min y r2) / 2)%Q) /\
       (py_max x r1 < (py_max x r1 + py_min y r2) / 2)%Q /\
       ((py_max x r1 + py_min y r2) / 2 < py_min y r2)%Q) /\
  (exists c1 c2 t,
     find_gap_clusters (repeat (1 # 1000) 10 ++ repeat (10 # 1000) 10) = Some (Some (c1, c2)) /\
     analyze_gaps (repeat (1 # 1000) 10 ++ repeat (10 # 1000) 10) = Some (Some t) /\
     (t == 55 # 10000)%Q).
Proof.
  split.
  2:{ eexists; eexists; eexists; split; [vm_compute; reflexivity|].
      split; [vm_compute; reflexivity|vm_compute; reflexivity]. }
  intros gaps c1 c2 Hne Hnn Hf.
  destruct (find_gap_clusters_accepts gaps c1 c2 Hnn Hf)
    as [i [Hi [Hmax [Hacc [Ec1 Ec2]]]]].
  destruct (py_sorted_spec gaps) as [Hss [Hlen Hin]].
  set (s := py_sorted gaps) in *.
  destruct c1 as [|x r1] eqn:Ex.
  { apply (f_equal (@length Q)) in Ec1; rewrite length_firstn in Ec1; simpl in Ec1; lia. }
  destruct c2 as [|y r2] eqn:Ey.
  { apply (f_equal (@length Q)) in Ec2; rewrite length_skipn in Ec2; simpl in Ec2; lia. }
  rewrite <- Ex, <- Ey in Hf.
  assert (Hs_nn : forall k, k < length s -> (0 <= nth k s 0)%Q).
  { intros k Hk; apply (proj1 (Forall_forall _ _) Hnn); apply Hin; apply nth_In; exact Hk. }
  assert (Hpm : (py_max x r1 == nth (i - 1) s 0)%Q).
  { destruct (py_max_spec x r1) as [Hm1 Hm2]; rewrite Ec1 in Hm1, Hm2.
    apply Qle_antisym.
    - destruct (In_nth _ _ 0%Q Hm1) as [a [Ha Ena]].
      rewrite length_firstn in Ha; rewrite <- Ena, nth_firstn.
      replace (a <? i) with true by (symmetry; apply Nat.ltb_lt; lia).
      apply sorted_nth_mono; [exact Hss|lia|lia].
    - apply Hm2. replace (nth (i - 1) s 0%Q) with (nth (i - 1) (firstn i s) 0%Q).
      + apply nth_In; rewrite length_firstn; lia.
      + rewrite nth_firstn; replace (i - 1 <? i) with true by (symmetry; apply Nat.ltb_lt; lia).
        reflexivity. }
  assert (Hpn : (py_min y r2 == nth i s 0)%Q).
  { destruct (py_min_spec y r2) as [Hm1 Hm2]; rewrite Ec2 in Hm1, Hm2.
    apply Qle_antisym.
    - apply Hm2. replace (nth i s 0%Q) with (nth 0 (skipn i s) 0%Q)
        by (rewrite nth_skipn, Nat.add_0_r; reflexivity).
      apply nth_In; rewrite length_skipn; lia.
    - destruct (In_nth _ _ 0%Q Hm1) as [a [Ha Ena]].
      rewrite length_skipn in Ha; rewrite <- Ena, nth_skipn.
      apply sorted_nth_mono; [exact Hss|lia|lia]. }
  assert (Hprev := Hs_nn (i - 1) ltac:(lia)).
  assert (Hjump : (nth (i - 1) s 0%Q < nth i s 0%Q)%Q).
  { pose proof Hacc as Hj; unfold gap_jump in Hj; lra. }
  exists i, x, r1, y, r2.
  split; [exact Hi|split; [exact Hmax|split; [rewrite Qmult_comm; exact Hacc|]]].
  split; [exact Ec1|split; [exact Ec2|split; [reflexivity|split; [reflexivity|]]]].
  split; [exact Hpm|split; [exact Hpn|split]].
  - destruct gaps as [|g gs]; [congruence|].
    unfold analyze_gaps; rewrite Hf, Ex, Ey; reflexivity.
  - rewrite Hpm, Hpn; split.
    + apply Qlt_shift_div_l; [reflexivity|lra].
    + apply Qlt_shift_div_r; [reflexivity|lra].
Qed.

Lemma analyze_gaps_bimodal_threshold_witness :
  let gaps := repeat (1 # 1000) 10 ++ repeat (10 # 1000) 10 in
  (gaps <> [] /\ Forall (fun g => 0 <= g)%Q gaps /\
   find_gap_clusters gaps = Some (Some (repeat (1 # 1000) 10, repeat (10 # 1000) 10))) /\
  exists i x r1 y r2,
    1 <= i < length (py_sorted gaps) /\
    (forall j, 1 <= j < length (py_sorted gaps) ->
       (gap_jump (py_sorted gaps) j <= gap_jump (py_sorted gaps) i)%Q) /\
    (2 * nth (i - 1) (py_sorted gaps) 0 < gap_jump (py_sorted gaps) i)%Q /\
    repeat (1 # 1000) 10 = firstn i (py_sorted gaps) /\
    repeat (10 # 1000) 10 = skipn i (py_sorted gaps) /\
    repeat (1 # 1000) 10 = x :: r1 /\ repeat (10 # 1000) 10 = y :: r2 /\
    (py_max x r1 == nth (i - 1) (py_sorted gaps) 0)%Q /\
    (py_min y r2 == nth i (py_sorted gaps) 0)%Q /\
    analyze_gaps gaps = Some (Some ((py_max x r1 + py_min y r2) / 2)%Q) /\
    (py_max x r1 < (py_max x r1 + py_min y r2) / 2)%Q /\
    ((py_max x r1 + py_min y r2) / 2 < py_min y r2)%Q.
Proof.
  cbv zeta.
  assert (Hnn : Forall (fun g => 0 <= g)%Q (repeat (1 # 1000) 10 ++ repeat (10 # 1000) 10)).
  { repeat constructor; discriminate. }
  assert (Hf : find_gap_clusters (repeat (1 # 1000) 10 ++ repeat (10 # 1000) 10)
               = Some (Some (repeat (1 # 1000) 10, repeat (10 # 1000) 10))).
  { vm_compute; reflexivity. }
  split; [split; [cbn; discriminate|split; [exact Hnn|exact Hf]]|].
  refine (proj1 analyze_gaps_bimodal_threshold _ _ _ _ Hnn Hf).
  cbn; discriminate.
Defined.

(** ** Entry points: no observations, too few observations *)

(** C7.  When the requested identifier yields no observations, every entry
    point stops with the not-found report and exit status 1 right after its
    header: [time_decode] prints no gap count, threshold or sweep result,
    [find_threshold] prints no statistics, and [bit_candecoder] prints no
    frame counts, collects no bitstream and searches nothing. *)
Theorem empty_observations_not_found :
  (forall logfile canid threshold,
     time_decode_main logfile canid [] threshold
     = ([TdParsing logfile canid; TdNoTimestamps], 1%Z)) /\
  (forall logfile canid,
     find_threshold_main logfile canid []
     = ([FtAnalyzing logfile canid; FtNoTimestamps], 1%Z)) /\
  (forall filename can_id,
     bit_candecoder_main filename can_id []
     = ([BcHeader filename can_id; BcNoFrames can_id], 1%Z)).
Proof.
  split; [|split]; intros; reflexivity.
Qed.

Lemma gaps_from_timestamps_short (ts : list Q) :
  length ts < 2 -> gaps_from_timestamps ts = [].
Proof.
  destruct ts as [|a [|b r]]; simpl; intros H; [reflexivity|reflexivity|lia].
Qed.

(** C8.  For a timestamp sequence of fewer than 2 elements there are no
    gaps, gap analysis returns no threshold, [find_threshold] ends with
    "could not determine threshold" (or with the not-found report when the
    sequence is empty) and never reports a threshold, and the sweep of
    [time_decode] with any manually supplied threshold finds nothing. *)
Theorem short_sequence_no_threshold (ts : list Q) :
  length ts < 2 ->
  gaps_from_timestamps ts = [] /\
  analyze_gaps (gaps_from_timestamps ts) = Some None /\
  (forall logfile canid,
     find_threshold_main logfile canid ts
     = match ts with
       | [] => ([FtAnalyzing logfile canid; FtNoTimestamps], 1%Z)
       | _ => ([FtAnalyzing logfile canid; FtFoundFrames 1; FtGaps 0; FtUndetermined], 0%Z)
       end) /\
  (forall threshold, try_all_combinations (gaps_from_timestamps ts) threshold = Some []).
Proof.
  intros H.
  assert (Hg := gaps_from_timestamps_short ts H).
  split; [exact Hg|]. rewrite Hg.
  split; [reflexivity|split].
  - intros logfile canid.
    destruct ts as [|a [|b r]]; [reflexivity|reflexivity|simpl in H; lia].
  - intros threshold; vm_compute; reflexivity.
Qed.

Lemma short_sequence_no_threshold_witness :
  length [1 # 1] < 2 /\
  gaps_from_timestamps [1 # 1] = [] /\
  analyze_gaps (gaps_from_timestamps [1 # 1]) = Some None /\
  (forall logfile canid,
     find_threshold_main logfile canid [1 # 1]
     = ([FtAnalyzing logfile canid; FtFoundFrames 1; FtGaps 0; FtUndetermined], 0%Z)) /\
  (forall threshold, try_all_combinations (gaps_from_timestamps [1 # 1]) threshold = Some []).
Proof.
  assert (H : length [1 # 1] < 2) by (simpl; lia).
  split; [exact H|].
  exact (short_sequence_no_threshold [1 # 1] H).
Defined.

(** ** Content adapter: Method 1 *)

Lemma frame_classes (d : pystr) :
  (if is_remote_frame d then 1 else 0) + (if is_empty_frame d then 1 else 0)
  + (if is_data_frame d then 1 else 0) = 1.
Proof.
  unfold is_data_frame.
  destruct (is_remote_frame d) eqn:Er.
  - unfold is_remote_frame, pystr_eqb in Er.
    destruct (list_eq_dec ascii_dec d (lit "R")) as [->|]; [|discriminate].
    vm_compute; reflexivity.
  - destruct (is_empty_frame d) eqn:Ee; simpl.
    + rewrite andb_false_r; reflexivity.
    + destruct d as [|c r]; [discriminate|reflexivity].
Qed.

Lemma data_frames_count (frames : list frame) :
  data_frames frames = Z.of_nat (length (filter (fun f : frame => is_data_frame (snd f)) frames)).
Proof.
  unfold data_frames.
  enough (length frames
          = remote_frames frames + empty_frames frames
            + length (filter (fun f : frame => is_data_frame (snd f)) frames)) by lia.
  unfold remote_frames, empty_frames.
  induction frames as [|[t d] fs IH]; [reflexivity|].
  cbn [filter length snd]. pose proof (frame_classes d) as Hc.
  destruct (is_remote_frame d), (is_empty_frame d), (is_data_frame d);
    cbn [length] in *; lia.
Qed.

Lemma method1_bits_no_data (frames : list frame) :
  filter (fun f : frame => is_data_frame (snd f)) frames = [] -> method1_bits frames = [].
Proof.
  induction frames as [|[t d] fs IH]; [reflexivity|].
  cbn [filter snd]. unfold method1_bits; cbn [flat_map frame_lsb_bits].
  destruct (is_data_frame d); [discriminate|]. exact IH.
Qed.

(** [method1] appends exactly the non-empty bitstreams. *)
Lemma method1_alt (frames : list frame) :
  method1 frames
  = if py_truthy (method1_bits frames) then Some (method1_bits frames) else None.
Proof.
  unfold method1. rewrite data_frames_count.
  destruct (filter (fun f : frame => is_data_frame (snd f)) frames) eqn:E.
  - rewrite (method1_bits_no_data frames E). reflexivity.
  - cbn [length]. replace (0 <? Z.of_nat (S (length l)))%Z with true by (symmetry; apply Z.ltb_lt; lia).
    reflexivity.
Qed.

Lemma pairs_bits_app_even (n : nat) (l1 l2 : pystr) :
  length l1 = 2 * n -> pairs_bits (l1 ++ l2) = pairs_bits l1 ++ pairs_bits l2.
Proof.
  revert l1; induction n as [|n IH]; intros l1 Hl.
  - destruct l1; [reflexivity|simpl in Hl; lia].
  - destruct l1 as [|a [|b r]]; simpl in Hl; try lia.
    cbn [app pairs_bits]. rewrite (IH r) by lia.
    destruct (py_int16_pair a b); reflexivity.
Qed.

Lemma even_length_double (l : pystr) :
  Nat.even (length l) = true -> exists n, length l = 2 * n.
Proof.
  intros H. apply Nat.even_spec in H. destruct H as [n Hn]. exists n; exact Hn.
Qed.

Lemma pad_even (d : pystr) : exists n, length (pad d) = 2 * n.
Proof.
  unfold pad. destruct (Nat.odd (length d)) eqn:Eo.
  - apply Nat.odd_spec in Eo. destruct Eo as [m Hm].
    exists (S m). cbn [length]. lia.
  - apply even_length_double. rewrite <- Nat.negb_odd, Eo. reflexivity.
Qed.

Lemma pad_of_even (d : pystr) (n : nat) : length d = 2 * n -> pad d = d.
Proof.
  intros H. unfold pad. rewrite H.
  replace (Nat.odd (2 * n)) with false; [reflexivity|].
  symmetry. rewrite <- Nat.negb_even, Nat.even_mul. reflexivity.
Qed.

Lemma space_not_hex (c : ascii) : py_isspace c = true -> hex_digit c = None.
Proof.
  destruct c as [b0 b1 b2 b3 b4 b5 b6 b7].
  destruct b0, b1, b2, b3, b4, b5, b6, b7; vm_compute; intros H;
    solve [reflexivity | discriminate H].
Qed.

Lemma pairs_bits_spaces (l : pystr) : forallb py_isspace l = true -> pairs_bits l = [].
Proof.
  intros H. remember (length l) as k eqn:Ek.
  revert l H Ek; induction k as [k IH] using (well_founded_induction lt_wf); intros l H Ek.
  destruct l as [|a [|b r]]; [reflexivity|reflexivity|].
  cbn [forallb] in H. apply andb_true_iff in H as [Ha H]. apply andb_true_iff in H as [Hb Hr].
  cbn [pairs_bits].
  unfold py_int16_pair; rewrite (space_not_hex a Ha), (space_not_hex b Hb).
  apply (IH (length r)); [subst k; cbn [length]; lia|exact Hr|reflexivity].
Qed.

(** C9.  In a data frame whose (padded) payload contains an unparseable
    pair [a b] at a pair boundary, that pair contributes no bit and raises
    nothing: the frame's bits are those of the pairs before it followed by
    those after it, the frames after it are processed as usual, and
    Method 1 gives the same result as on the log in which that frame's
    payload has the pair removed. *)
Theorem method1_skips_malformed_pair (fs1 fs2 : list frame) (t d d1 d2 : pystr) (a b : ascii) :
  is_data_frame d = true ->
  pad d = d1 ++ [a; b] ++ d2 ->
  Nat.even (length d1) = true ->
  py_int16_pair a b = None ->
  method1_bits (fs1 ++ (t, d) :: fs2)
    = method1_bits fs1 ++ pairs_bits d1 ++ pairs_bits d2 ++ method1_bits fs2 /\
  method1_bits (fs1 ++ (t, d) :: fs2) = method1_bits (fs1 ++ (t, d1 ++ d2) :: fs2) /\
  method1 (fs1 ++ (t, d) :: fs2) = method1 (fs1 ++ (t, d1 ++ d2) :: fs2).
Proof.
  intros Hdata Hpad Hev Hbad.
  destruct (even_length_double d1 Hev) as [n1 Hn1].
  destruct (pad_even d) as [n Hn].
  assert (Hlen : length (d1 ++ d2) = 2 * (n - n1 - 1) + 2 * n1).
  { rewrite Hpad in Hn. rewrite length_app in Hn |- *. cbn [app length] in Hn. lia. }
  assert (Hsplit : pairs_bits (d1 ++ d2) = pairs_bits d1 ++ pairs_bits d2)
    by exact (pairs_bits_app_even n1 d1 d2 Hn1).
  assert (Hd : frame_lsb_bits (t, d) = pairs_bits d1 ++ pairs_bits d2).
  { unfold frame_lsb_bits; rewrite Hdata, Hpad, (pairs_bits_app_even n1 d1 _ Hn1).
    cbn [app pairs_bits]; rewrite Hbad; reflexivity. }
  assert (Hd' : frame_lsb_bits (t, d1 ++ d2) = pairs_bits d1 ++ pairs_bits d2).
  { unfold frame_lsb_bits.
    rewrite (pad_of_even (d1 ++ d2) (n - n1 - 1 + n1)) by lia.
    destruct (is_data_frame (d1 ++ d2)) eqn:Ed; [exact Hsplit|].
    unfold is_data_frame in Ed.
    destruct (is_empty_frame (d1 ++ d2)) eqn:Ee.
    - rewrite <- Hsplit. symmetry. apply pairs_bits_spaces. exact Ee.
    - destruct (is_remote_frame (d1 ++ d2)) eqn:Er.
      + unfold is_remote_frame, pystr_eqb in Er.
        destruct (list_eq_dec ascii_dec (d1 ++ d2) (lit "R")) as [He|]; [|discriminate].
        rewrite He in Hlen. cbn in Hlen. lia.
      + destruct (d1 ++ d2) eqn:E12; [|discriminate].
        rewrite <- Hsplit. reflexivity. }
  assert (Hm : forall x, method1_bits (fs1 ++ x :: fs2)
                         = method1_bits fs1 ++ frame_lsb_bits x ++ method1_bits fs2).
  { intros x. unfold method1_bits. rewrite flat_map_app. reflexivity. }
  assert (E1 : method1_bits (fs1 ++ (t, d) :: fs2)
               = method1_bits fs1 ++ pairs_bits d1 ++ pairs_bits d2 ++ method1_bits fs2).
  { rewrite Hm, Hd, <- app_assoc. reflexivity. }
  assert (E2 : method1_bits (fs1 ++ (t, d) :: fs2) = method1_bits (fs1 ++ (t, d1 ++ d2) :: fs2)).
  { rewrite !Hm, Hd, Hd'. reflexivity. }
  split; [exact E1|split; [exact E2|]].
  rewrite !method1_alt, E2. reflexivity.
Qed.

Lemma method1_skips_malformed_pair_witness :
  (is_data_frame (lit "01ZZ03") = true /\
   pad (lit "01ZZ03") = lit "01" ++ ["Z"%char; "Z"%char] ++ lit "03" /\
   Nat.even (length (lit "01")) = true /\
   py_int16_pair "Z"%char "Z"%char = None) /\
  method1_bits ([] ++ (lit "1", lit "01ZZ03") :: [(lit "2", lit "R")])
    = method1_bits [] ++ pairs_bits (lit "01") ++ pairs_bits (lit "03")
      ++ method1_bits [(lit "2", lit "R")] /\
  method1_bits ([] ++ (lit "1", lit "01ZZ03") :: [(lit "2", lit "R")])
    = method1_bits ([] ++ (lit "1", lit "01" ++ lit "03") :: [(lit "2", lit "R")]) /\
  method1 ([] ++ (lit "1", lit "01ZZ03") :: [(lit "2", lit "R")])
    = method1 ([] ++ (lit "1", lit "01" ++ lit "03") :: [(lit "2", lit "R")]).
Proof.
  assert (H1 : is_data_frame (lit "01ZZ03") = true) by (vm_compute; reflexivity).
  assert (H2 : pad (lit "01ZZ03") = lit "01" ++ ["Z"%char; "Z"%char] ++ lit "03")
    by (vm_compute; reflexivity).
  assert (H3 : Nat.even (length (lit "01")) = true) by (vm_compute; reflexivity).
  assert (H4 : py_int16_pair "Z"%char "Z"%char = None) by (vm_compute; reflexivity).
  split; [split; [exact H1|split; [exact H2|split; [exact H3|exact H4]]]|].
  exact (method1_skips_malformed_pair [] [(lit "2", lit "R")] (lit "1") (lit "01ZZ03")
           (lit "01") (lit "03") "Z"%char "Z"%char H1 H2 H3 H4).
Defined.

(** * Further properties of the code *)

(** ** gaps_from_timestamps *)

Lemma gaps_from_timestamps_cons2 (a b : Q) (r : list Q) :
  gaps_from_timestamps (a :: b :: r) = (b - a)%Q :: gaps_from_timestamps (b :: r).
Proof. reflexivity. Qed.


(** Timestamps in non-decreasing order give non-negative gaps. *)
Theorem gaps_from_sorted_nonneg (ts : list Q) :
  Sorted Qle ts -> Forall (fun g => 0 <= g)%Q (gaps_from_timestamps ts).
Proof.
  induction ts as [|a r IH]; intros H; [constructor|].
  destruct r as [|b r]; [constructor|].
  rewrite gaps_from_timestamps_cons2.
  apply Sorted_inv in H as [Hs Hh]. inversion Hh; subst.
  constructor; [lra|exact (IH Hs)].
Qed.

Lemma gaps_from_sorted_nonneg_witness :
  Sorted Qle [1 # 1; 2 # 1; 2 # 1; 5 # 1] /\
  Forall (fun g => 0 <= g)%Q (gaps_from_timestamps [1 # 1; 2 # 1; 2 # 1; 5 # 1]).
Proof.
  assert (H : Sorted Qle [1 # 1; 2 # 1; 2 # 1; 5 # 1]).
  { repeat constructor; unfold Qle; simpl; lia. }
  split; [exact H|exact (gaps_from_sorted_nonneg _ H)].
Defined.


(** ** find_gap_clusters, analyze_gaps *)

Lemma insert_sorted_perm (x : Q) (l : list Q) : Permutation (insert_sorted x l) (x :: l).
Proof.
  induction l as [|y l IH]; [reflexivity|]. simpl.
  destruct (Qlt_bool x y); [reflexivity|].
  rewrite IH. apply perm_swap.
Qed.

Lemma py_sorted_perm (l : list Q) : Permutation (py_sorted l) l.
Proof.
  unfold py_sorted.
  assert (G : forall acc, Permutation (fold_left (fun acc x => insert_sorted x acc) l acc)
                                      (l ++ acc)).
  { induction l as [|x l IH]; intros acc; [reflexivity|]. cbn [fold_left].
    rewrite IH, insert_sorted_perm. symmetry; apply Permutation_middle. }
  rewrite G, app_nil_r. reflexivity.
Qed.

Lemma py_index_pred_some (s : list Q) (si : nat) :
  1 <= length s -> si <= length s -> exists q, py_index s (Z.of_nat si - 1) = Some q.
Proof.
  intros H1 H2. unfold py_index.
  destruct si as [|si].
  - cbn [Z.of_nat]. replace (0 - 1 <? 0)%Z with true by reflexivity.
    replace (Z.of_nat (length s) + (0 - 1) <? 0)%Z with false
      by (symmetry; apply Z.ltb_ge; lia).
    destruct (nth_error s (Z.to_nat (Z.of_nat (length s) + (0 - 1)))) eqn:E;
      [eexists; reflexivity|].
    apply nth_error_None in E. lia.
  - replace (Z.of_nat (S si) - 1 <? 0)%Z with false by (symmetry; apply Z.ltb_ge; lia).
    destruct (nth_error s (Z.to_nat (Z.of_nat (S si) - 1))) eqn:E; [eexists; reflexivity|].
    apply nth_error_None in E. lia.
Qed.

Lemma find_gap_clusters_shape (gaps : list Q) :
  gaps <> [] ->
  exists si, si <= length (py_sorted gaps) /\
    (find_gap_clusters gaps = Some None \/
     find_gap_clusters gaps
     = Some (Some (firstn si (py_sorted gaps), skipn si (py_sorted gaps)))).
Proof.
  intros Hne. unfold find_gap_clusters.
  set (s := py_sorted gaps).
  assert (Hlen : 1 <= length s).
  { unfold s; rewrite (proj1 (proj2 (py_sorted_spec gaps))).
    destruct gaps; [congruence|simpl; lia]. }
  destruct (jump_fold_inv s (seq 1 (length s - 1)) [] (0%Q, length s / 2)
              ltac:(intros j []) ltac:(left; split; reflexivity)) as [_ H2].
  cbn [app] in H2.
  destruct (fold_left (jump_step s) (seq 1 (length s - 1)) (0%Q, length s / 2)) as [mj si].
  simpl in H2.
  assert (Hsi : si <= length s).
  { destruct H2 as [[_ ->]|[Hin _]]; [change (length s / 2 <= length s); apply Nat.Div0.div_le_upper_bound; lia|].
    apply in_seq in Hin; lia. }
  destruct (py_index_pred_some s si Hlen Hsi) as [q Hq]. rewrite Hq.
  exists si; split; [exact Hsi|].
  destruct (Qlt_bool (q * 2) mj); [right|left]; reflexivity.
Qed.

Lemma analyze_gaps_total (gaps : list Q) : analyze_gaps gaps <> None.
Proof.
  destruct gaps as [|g gs]; [discriminate|].
  destruct (find_gap_clusters_shape (g :: gs) ltac:(discriminate)) as [si [_ [E|E]]];
    unfold analyze_gaps; rewrite E; [discriminate|].
  destruct (firstn si _) as [|x c1], (skipn si _) as [|y c2]; discriminate.
Qed.

(** [find_gap_clusters] raises ([IndexError]) exactly on an empty gap list,
    and [analyze_gaps] never raises. *)
Theorem find_gap_clusters_raises_iff_empty (gaps : list Q) :
  (find_gap_clusters gaps = None <-> gaps = []) /\ analyze_gaps gaps <> None.
Proof.
  split.
  - split; [|intros ->; reflexivity].
    intros H. destruct gaps as [|g gs]; [reflexivity|].
    destruct (find_gap_clusters_shape (g :: gs) ltac:(discriminate)) as [si [_ [E|E]]];
      rewrite E in H; discriminate.
  - exact (analyze_gaps_total gaps).
Qed.

Lemma find_gap_clusters_split (gaps c1 c2 : list Q) :
  find_gap_clusters gaps = Some (Some (c1, c2)) ->
  c1 ++ c2 = py_sorted gaps /\ Permutation (c1 ++ c2) gaps.
Proof.
  intros H.
  destruct gaps as [|g gs]; [discriminate|].
  destruct (find_gap_clusters_shape (g :: gs) ltac:(discriminate)) as [si [_ [E|E]]];
    rewrite E in H; [discriminate|].
  injection H as <- <-. rewrite firstn_skipn. split; [reflexivity|apply py_sorted_perm].
Qed.



Lemma clusters_separated (gaps c1 c2 : list Q) :
  Forall (fun g => 0 <= g)%Q gaps ->
  find_gap_clusters gaps = Some (Some (c1, c2)) ->
  c1 <> [] /\ c2 <> [] /\ forall a b, In a c1 -> In b c2 -> (a < b)%Q.
Proof.
  intros Hnn Hf.
  destruct (find_gap_clusters_accepts gaps c1 c2 Hnn Hf) as [i [Hi [_ [Hacc [-> ->]]]]].
  destruct (py_sorted_spec gaps) as [Hss [Hlen Hin]].
  set (s := py_sorted gaps) in *.
  assert (Hprev : (0 <= nth (i - 1) s 0%Q)%Q).
  { apply (proj1 (Forall_forall _ _) Hnn); apply Hin; apply nth_In; lia. }
  assert (Hj : (nth (i - 1) s 0%Q < nth i s 0%Q)%Q).
  { unfold gap_jump in Hacc; lra. }
  split; [|split].
  - intros E. apply (f_equal (@length Q)) in E. rewrite length_firstn in E. simpl in E. lia.
  - intros E. apply (f_equal (@length Q)) in E. rewrite length_skipn in E. simpl in E. lia.
  - intros a b Ha Hb.
    destruct (In_nth _ _ 0%Q Ha) as [ka [Hka Ea]].
    destruct (In_nth _ _ 0%Q Hb) as [kb [Hkb Eb]].
    rewrite length_firstn in Hka. rewrite length_skipn in Hkb.
    rewrite nth_firstn in Ea. rewrite nth_skipn in Eb.
    replace (ka <? i) with true in Ea by (symmetry; apply Nat.ltb_lt; lia).
    rewrite <- Ea, <- Eb.
    apply Qle_lt_trans with (nth (i - 1) s 0%Q); [apply sorted_nth_mono; [exact Hss|lia|lia]|].
    apply Qlt_le_trans with (nth i s 0%Q); [exact Hj|].
    apply sorted_nth_mono; [exact Hss|lia|lia].
Qed.

(** On non-negative gaps, both clusters of an accepted split are non-empty
    and every gap of Cluster1 is strictly smaller than every gap of
    Cluster2. *)
Theorem find_gap_clusters_separated (gaps c1 c2 : list Q) :
  Forall (fun g => 0 <= g)%Q gaps ->
  find_gap_clusters gaps = Some (Some (c1, c2)) ->
  c1 <> [] /\ c2 <> [] /\ forall a b, In a c1 -> In b c2 -> (a < b)%Q.
Proof. exact (clusters_separated gaps c1 c2). Qed.

Lemma find_gap_clusters_separated_witness :
  let gaps := [3 # 1; 1 # 10; 4 # 1; 1 # 10] in
  (Forall (fun g => 0 <= g)%Q gaps /\
   find_gap_clusters gaps = Some (Some ([1 # 10; 1 # 10], [3 # 1; 4 # 1]))) /\
  [1 # 10; 1 # 10] <> [] /\ [3 # 1; 4 # 1] <> [] /\
  forall a b, In a [1 # 10; 1 # 10] -> In b [3 # 1; 4 # 1] -> (a < b)%Q.
Proof.
  cbv zeta.
  assert (Hnn : Forall (fun g => 0 <= g)%Q [3 # 1; 1 # 10; 4 # 1; 1 # 10])
    by (repeat constructor; discriminate).
  assert (H : find_gap_clusters [3 # 1; 1 # 10; 4 # 1; 1 # 10]
              = Some (Some ([1 # 10; 1 # 10], [3 # 1; 4 # 1]))) by (vm_compute; reflexivity).
  split; [split; [exact Hnn|exact H]|].
  exact (find_gap_clusters_separated _ _ _ Hnn H).
Defined.

Lemma midpoint_between (a b : Q) :
  ((a <= b)%Q -> (a <= (a + b) / 2 <= b)%Q) /\ ((b <= a)%Q -> (b <= (a + b) / 2 <= a)%Q).
Proof.
  split; intros H; split;
    first [apply Qle_shift_div_l; [reflexivity|lra] | apply Qle_shift_div_r; [reflexivity|lra]].
Qed.

Lemma between_two (a b : Q) (l : list Q) :
  In a l -> In b l -> exists lo hi, In lo l /\ In hi l /\ (lo <= (a + b) / 2 <= hi)%Q.
Proof.
  intros Ha Hb. destruct (midpoint_between a b) as [H1 H2].
  destruct (Qlt_le_dec a b) as [E|E]; [apply Qlt_le_weak in E|].
  - exists a, b; auto.
  - exists b, a; auto.
Qed.

(** The threshold [analyze_gaps] suggests, from the clusters or the median,
    lies between the smallest and the largest gap. *)
Theorem analyze_gaps_threshold_in_range (gaps : list Q) (t : Q) :
  analyze_gaps gaps = Some (Some t) ->
  exists lo hi, In lo gaps /\ In hi gaps /\ (lo <= t <= hi)%Q.
Proof.
  intros H. destruct gaps as [|g gs]; [discriminate|].
  set (gaps := g :: gs) in *.
  destruct (py_sorted_spec gaps) as [_ [Hlen Hin]].
  assert (Hmed : exists lo hi, In lo gaps /\ In hi gaps /\ (lo <= median gaps <= hi)%Q).
  { unfold median. set (s := py_sorted gaps) in *.
    assert (Hn : 1 <= length s) by (rewrite Hlen; simpl; lia).
    destruct (Nat.odd (length s)) eqn:Eo.
    - exists (nth (length s / 2) s 0%Q), (nth (length s / 2) s 0%Q).
      assert (Hi : In (nth (length s / 2) s 0%Q) gaps)
        by (apply Hin, nth_In, Nat.div_lt; lia).
      split; [exact Hi|split; [exact Hi|split; apply Qle_refl]].
    - assert (H2 : 2 <= length s).
      { destruct (length s) as [|[|n]]; [lia|discriminate|lia]. }
      apply between_two; apply Hin, nth_In.
      + assert (length s / 2 < length s) by (apply Nat.div_lt; lia). lia.
      + apply Nat.div_lt; lia. }
  unfold analyze_gaps in H. fold gaps in H.
  destruct (find_gap_clusters gaps) as [[[c1 c2]|]|] eqn:Ef; [|injection H as <-; exact Hmed|discriminate].
  destruct (find_gap_clusters_split gaps c1 c2 Ef) as [Ep _].
  destruct c1 as [|x r1]; [injection H as <-; exact Hmed|].
  destruct c2 as [|y r2]; [injection H as <-; exact Hmed|].
  injection H as <-.
  apply between_two; apply Hin; rewrite <- Ep; apply in_or_app.
  - left. exact (proj1 (py_max_spec x r1)).
  - right. exact (proj1 (py_min_spec y r2)).
Qed.

Lemma analyze_gaps_threshold_in_range_witness :
  analyze_gaps [1 # 1; 2 # 1; 3 # 1] = Some (Some (2 # 1)) /\
  exists lo hi, In lo [1 # 1; 2 # 1; 3 # 1] /\ In hi [1 # 1; 2 # 1; 3 # 1] /\
    (lo <= 2 # 1 <= hi)%Q.
Proof.
  assert (H : analyze_gaps [1 # 1; 2 # 1; 3 # 1] = Some (Some (2 # 1))) by (vm_compute; reflexivity).
  split; [exact H|exact (analyze_gaps_threshold_in_range _ _ H)].
Defined.

(** Feeding the threshold of an accepted split back into [bits_from_gaps]
    (the find_threshold to time_decode pipeline): on non-negative gaps every
    gap of Cluster1 becomes [short_is] and every gap of Cluster2 the other
    symbol. *)
Theorem cluster_threshold_classifies (gaps c1 c2 : list Q) (t : Q) (short_is : ascii) :
  Forall (fun g => 0 <= g)%Q gaps ->
  find_gap_clusters gaps = Some (Some (c1, c2)) ->
  analyze_gaps gaps = Some (Some t) ->
  forall k g, nth_error gaps k = Some g ->
    (In g c1 -> nth_error (bits_from_gaps gaps t short_is) k = Some short_is) /\
    (In g c2 -> nth_error (bits_from_gaps gaps t short_is) k
                = Some (if Ascii.eqb short_is "0"%char then "1"%char else "0"%char)).
Proof.
  intros Hnn Hf Ha k g Hk.
  destruct (clusters_separated gaps c1 c2 Hnn Hf) as [H1 [H2 Hsep]].
  destruct c1 as [|x r1]; [congruence|]. destruct c2 as [|y r2]; [congruence|].
  destruct gaps as [|g0 gs]; [discriminate|].
  unfold analyze_gaps in Ha. rewrite Hf in Ha. injection Ha as <-.
  destruct (py_max_spec x r1) as [Hm1 Hm2]. destruct (py_min_spec y r2) as [Hn1 Hn2].
  assert (Hlt : (py_max x r1 < py_min y r2)%Q) by exact (Hsep _ _ Hm1 Hn1).
  destruct (midpoint_between (py_max x r1) (py_min y r2)) as [Hmid _].
  assert (Hlo : (py_max x r1 < (py_max x r1 + py_min y r2) / 2)%Q)
    by (apply Qlt_shift_div_l; [reflexivity|lra]).
  assert (Hhi : ((py_max x r1 + py_min y r2) / 2 < py_min y r2)%Q)
    by (apply Qlt_shift_div_r; [reflexivity|lra]).
  unfold bits_from_gaps. rewrite nth_error_map, Hk. cbn [option_map].
  split; intros Hg.
  - assert (Hgt : (g < (py_max x r1 + py_min y r2) / 2)%Q)
      by (apply Qle_lt_trans with (py_max x r1); [exact (Hm2 g Hg)|exact Hlo]).
    apply Qlt_bool_iff in Hgt. rewrite Hgt. reflexivity.
  - assert (Hgt : ((py_max x r1 + py_min y r2) / 2 <= g)%Q)
      by (apply Qle_trans with (py_min y r2); [apply Qlt_le_weak, Hhi|exact (Hn2 g Hg)]).
    destruct (Qlt_bool g _) eqn:E; [apply Qlt_bool_iff in E; lra|reflexivity].
Qed.

Lemma cluster_threshold_classifies_witness :
  let gaps := [3 # 1; 1 # 10; 4 # 1; 1 # 10] in
  (Forall (fun g => 0 <= g)%Q gaps /\
   find_gap_clusters gaps = Some (Some ([1 # 10; 1 # 10], [3 # 1; 4 # 1])) /\
   analyze_gaps gaps = Some (Some (31 # 20)) /\
   nth_error gaps 0 = Some (3 # 1)) /\
  (In (3 # 1) [1 # 10; 1 # 10] -> nth_error (bits_from_gaps gaps (31 # 20) "1"%char) 0 = Some "1"%char) /\
  (In (3 # 1) [3 # 1; 4 # 1] -> nth_error (bits_from_gaps gaps (31 # 20) "1"%char) 0
     = Some (if Ascii.eqb "1"%char "0"%char then "1"%char else "0"%char)).
Proof.
  cbv zeta.
  assert (Hnn : Forall (fun g => 0 <= g)%Q [3 # 1; 1 # 10; 4 # 1; 1 # 10])
    by (repeat constructor; discriminate).
  assert (Hf : find_gap_clusters [3 # 1; 1 # 10; 4 # 1; 1 # 10]
              = Some (Some ([1 # 10; 1 # 10], [3 # 1; 4 # 1]))) by (vm_compute; reflexivity).
  assert (Ha : analyze_gaps [3 # 1; 1 # 10; 4 # 1; 1 # 10] = Some (Some (31 # 20)))
    by (vm_compute; reflexivity).
  assert (Hk : nth_error [3 # 1; 1 # 10; 4 # 1; 1 # 10] 0 = Some (3 # 1)) by reflexivity.
  split; [split; [exact Hnn|split; [exact Hf|split; [exact Ha|exact Hk]]]|].
  exact (cluster_threshold_classifies _ _ _ _ "1"%char Hnn Hf Ha 0 (3 # 1) Hk).
Defined.

(** ** Entry points never crash once observations exist *)

Lemma try_all_combinations_some (gaps : list Q) (threshold : Q) :
  exists res, try_all_combinations gaps threshold = Some res.
Proof.
  rewrite try_all_combinations_fold.
  destruct (sweep_fold_spec gaps threshold sweep_hypotheses []
              ltac:(intros p o l H; apply sweep_hypotheses_in in H; exact (proj1 H))
              ltac:(constructor)) as [res [E _]].
  exists res; exact E.
Qed.

(** With at least one timestamp, [time_decode] always ends with status 0:
    no exception escapes the sweep or the sample decode. *)
Theorem time_decode_main_no_crash (logfile canid : pystr) (ts : list Q) (threshold : Q) :
  ts <> [] ->
  snd (time_decode_main logfile canid ts threshold) = 0%Z /\
  ~ In TdCrash (fst (time_decode_main logfile canid ts threshold)).
Proof.
  intros Hne. destruct ts as [|a r]; [congruence|].
  unfold time_decode_main.
  destruct (try_all_combinations_some (gaps_from_timestamps (a :: r)) threshold) as [res E].
  rewrite E. destruct res as [|x res].
  - destruct (pack_bits_ok (bits_from_gaps (gaps_from_timestamps (a :: r)) threshold "1"%char) 0 false
                (bits_from_gaps_bits _ _ _ ltac:(right; left; reflexivity))) as [bs Eb].
    rewrite Eb. split; [reflexivity|].
    intros H. repeat (destruct H as [H|H]; [discriminate H|]). exact H.
  - split; [reflexivity|].
    intros H. repeat (destruct H as [H|H]; [discriminate H|]). exact H.
Qed.

Lemma time_decode_main_no_crash_witness :
  [1 # 1; 2 # 1] <> [] /\
  snd (time_decode_main (lit "a.log") (lit "6F2") [1 # 1; 2 # 1] (3 # 2)) = 0%Z /\
  ~ In TdCrash (fst (time_decode_main (lit "a.log") (lit "6F2") [1 # 1; 2 # 1] (3 # 2))).
Proof.
  assert (H : [1 # 1; 2 # 1] <> []) by discriminate.
  split; [exact H|exact (time_decode_main_no_crash _ _ _ _ H)].
Defined.

(** With at least one timestamp, [find_threshold] always ends with status
    0, and a threshold it reports is the non-zero result of
    [analyze_gaps]. *)
Theorem find_threshold_main_no_crash (logfile canid : pystr) (ts : list Q) :
  ts <> [] ->
  snd (find_threshold_main logfile canid ts) = 0%Z /\
  ~ In FtCrash (fst (find_threshold_main logfile canid ts)) /\
  forall t, In (FtThreshold t) (fst (find_threshold_main logfile canid ts)) ->
    analyze_gaps (gaps_from_timestamps ts) = Some (Some t) /\ ~ (t == 0)%Q.
Proof.
  intros Hne. destruct ts as [|a r]; [congruence|].
  unfold find_threshold_main.
  destruct (analyze_gaps (gaps_from_timestamps (a :: r))) as [[t|]|] eqn:E;
    [| |exfalso; exact (analyze_gaps_total _ E)].
  1: destruct (Qeq_bool t 0) eqn:Eq.
  all: destruct (gaps_from_timestamps (a :: r)) as [|g gs]; cbn [fst app].
  all: split; [reflexivity|split]; [intros H|intros t' H]; simpl in H;
    repeat (destruct H as [H|H]; [try discriminate H|]); try contradiction.
  all: injection H as <-; split; [first [exact E|reflexivity]|intros Ht; apply Qeq_bool_iff in Ht; congruence].
Qed.

Lemma find_threshold_main_no_crash_witness :
  [1 # 1; 3 # 1; 4 # 1] <> [] /\
  snd (find_threshold_main (lit "a.log") (lit "6F2") [1 # 1; 3 # 1; 4 # 1]) = 0%Z /\
  ~ In FtCrash (fst (find_threshold_main (lit "a.log") (lit "6F2") [1 # 1; 3 # 1; 4 # 1])) /\
  forall t, In (FtThreshold t) (fst (find_threshold_main (lit "a.log") (lit "6F2") [1 # 1; 3 # 1; 4 # 1])) ->
    analyze_gaps (gaps_from_timestamps [1 # 1; 3 # 1; 4 # 1]) = Some (Some t) /\ ~ (t == 0)%Q.
Proof.
  assert (H : [1 # 1; 3 # 1; 4 # 1] <> []) by discriminate.
  split; [exact H|exact (find_threshold_main_no_crash _ _ _ H)].
Defined.

(** ** Bit strings and bytes: encoding round trips *)

Lemma format08b_length (c : ascii) : length (format08b c) = 8.
Proof. reflexivity. Qed.

Lemma format08b_value (c : ascii) :
  int_base2 (format08b c) = Some (Z.of_nat (nat_of_ascii c)) /\ forallb is_bit (format08b c) = true.
Proof.
  destruct c as [b0 b1 b2 b3 b4 b5 b6 b7].
  destruct b0, b1, b2, b3, b4, b5, b6, b7; split; vm_compute; reflexivity.
Qed.

Lemma firstn_len_app {A} (l1 l2 : list A) : firstn (length l1) (l1 ++ l2) = l1.
Proof. induction l1 as [|x l1 IH]; [reflexivity|]. simpl; rewrite IH; reflexivity. Qed.

Lemma skipn_len_app {A} (l1 l2 : list A) : skipn (length l1) (l1 ++ l2) = l2.
Proof. induction l1 as [|x l1 IH]; [reflexivity|]. simpl; exact IH. Qed.

(** The per-byte encodings: [format(ord(c), '08b')] read MSB first, or its
    reverse read LSB first. *)
Lemma enc_ok_msb : enc_ok format08b false.
Proof. intros c. split; [reflexivity|exact (proj1 (format08b_value c))]. Qed.

Lemma enc_ok_lsb : enc_ok (fun c => rev (format08b c)) true.
Proof.
  intros c. split; [rewrite length_rev; reflexivity|].
  unfold oriented; rewrite rev_involutive. exact (proj1 (format08b_value c)).
Qed.

Lemma pack_loop_enc (enc : ascii -> pystr) (lsb : bool) (s : pystr) (f : nat) :
  enc_ok enc lsb -> length s <= f -> pack_loop f (flat_map enc s) lsb = Some (to_bytes s).
Proof.
  intros He. revert f; induction s as [|c s IH]; intros f Hf.
  - destruct f; reflexivity.
  - destruct f as [|f]; [cbn [length] in Hf; lia|].
    destruct (He c) as [Hl Hv].
    cbn [flat_map]. rewrite pack_loop_cons.
    2:{ intros E. apply (f_equal (@length ascii)) in E. rewrite length_app, Hl in E. simpl in E. lia. }
    cbv zeta.
    replace (firstn 8 (enc c ++ flat_map enc s)) with (enc c)
      by (rewrite <- Hl; symmetry; apply firstn_len_app).
    replace (skipn 8 (enc c ++ flat_map enc s)) with (flat_map enc s)
      by (rewrite <- Hl; symmetry; apply skipn_len_app).
    rewrite Hl, Hv, IH by (cbn [length] in Hf; lia).
    reflexivity.
Qed.

(** Packing the bits of a byte string, each byte written as
    [format(b, '08b')] (MSB first), gives the bytes back; so does packing
    with [lsb_first] the bits written LSB first. *)
Theorem pack_bits_to_bytes_roundtrip (s : pystr) :
  pack_bits_to_bytes (flat_map format08b s) 0 false = Some (to_bytes s) /\
  pack_bits_to_bytes (flat_map (fun c => rev (format08b c)) s) 0 true = Some (to_bytes s).
Proof.
  assert (G : forall enc lsb, enc_ok enc lsb ->
            pack_bits_to_bytes (flat_map enc s) 0 lsb = Some (to_bytes s)).
  { intros enc lsb He. unfold pack_bits_to_bytes. cbn [skipn].
    apply pack_loop_enc; [exact He|].
    assert (Hl : length (flat_map enc s) = 8 * length s).
    { induction s as [|c s IH]; [reflexivity|]. cbn [flat_map length].
      rewrite length_app, IH, (proj1 (He c)). lia. }
    lia. }
  split; apply G; [exact enc_ok_msb|exact enc_ok_lsb].
Qed.

Lemma decode_loop_enc (enc : ascii -> pystr) (lsb : bool) (s : pystr) (f : nat) :
  enc_ok enc lsb -> length s <= f ->
  decode_loop f (flat_map enc s) lsb false
  = map (fun c => if printable c then c else "."%char) s.
Proof.
  intros He. revert f; induction s as [|c s IH]; intros f Hf.
  - destruct f; reflexivity.
  - destruct f as [|f]; [cbn [length] in Hf; lia|].
    destruct (He c) as [Hl Hv].
    cbn [flat_map decode_loop].
    replace (firstn 8 (enc c ++ flat_map enc s)) with (enc c)
      by (rewrite <- Hl; symmetry; apply firstn_len_app).
    replace (skipn 8 (enc c ++ flat_map enc s)) with (flat_map enc s)
      by (rewrite <- Hl; symmetry; apply skipn_len_app).
    rewrite length_app, Hl, Hv, IH by (cbn [length] in Hf; lia).
    replace (8 + length (flat_map enc s) <? 8) with false
      by (symmetry; apply Nat.ltb_ge; lia).
    rewrite andb_false_r. cbn [map].
    assert (Hc : nat_of_ascii c < 256) by apply nat_ascii_bounded.
    unfold printable.
    destruct (32 <=? nat_of_ascii c) eqn:E1, (nat_of_ascii c <? 127) eqn:E2;
      [apply Nat.leb_le in E1; apply Nat.ltb_lt in E2
      |apply Nat.leb_le in E1; apply Nat.ltb_ge in E2
      |apply Nat.leb_gt in E1; apply Nat.ltb_lt in E2
      |apply Nat.leb_gt in E1; apply Nat.ltb_ge in E2]; cbn [andb].
    + replace ((32 <=? Z.of_nat (nat_of_ascii c)) && (Z.of_nat (nat_of_ascii c) <=? 126))%Z
        with true by (symmetry; apply andb_true_iff; split; [apply Z.leb_le|apply Z.leb_le]; lia).
      rewrite Nat2Z.id, ascii_nat_embedding. reflexivity.
    + replace ((32 <=? Z.of_nat (nat_of_ascii c)) && (Z.of_nat (nat_of_ascii c) <=? 126))%Z
        with false by (symmetry; apply andb_false_iff; right; apply Z.leb_gt; lia).
      reflexivity.
    + replace ((32 <=? Z.of_nat (nat_of_ascii c)) && (Z.of_nat (nat_of_ascii c) <=? 126))%Z
        with false by (symmetry; apply andb_false_iff; left; apply Z.leb_gt; lia).
      reflexivity.
    + lia.
Qed.

(** [decode_bits_to_string] without [stop_at_brace] inverts the per-byte
    encoding: the bits of a string written MSB first (or LSB first, with
    [reverse_each_byte]) decode to that string, with every non-printable
    character shown as '.'. *)
Theorem decode_bits_to_string_roundtrip (s : pystr) :
  decode_bits_to_string (flat_map format08b s) false false
    = map (fun c => if printable c then c else "."%char) s /\
  decode_bits_to_string (flat_map (fun c => rev (format08b c)) s) true false
    = map (fun c => if printable c then c else "."%char) s.
Proof.
  assert (G : forall enc lsb, enc_ok enc lsb ->
            decode_bits_to_string (flat_map enc s) lsb false
            = map (fun c => if printable c then c else "."%char) s).
  { intros enc lsb He. unfold decode_bits_to_string.
    apply decode_loop_enc; [exact He|].
    assert (Hl : length (flat_map enc s) = 8 * length s).
    { induction s as [|c s IH]; [reflexivity|]. cbn [flat_map length].
      rewrite length_app, IH, (proj1 (He c)). lia. }
    lia. }
  split; apply G; [exact enc_ok_msb|exact enc_ok_lsb].
Qed.

Lemma nth_error_tl {A} (l : list A) (k : nat) : nth_error (tl l) k = nth_error l (S k).
Proof. destruct l; [destruct k; reflexivity|reflexivity]. Qed.

Lemma div8_sub8 (n : nat) : (n - 8) / 8 = n / 8 - 1.
Proof.
  destruct (Nat.lt_ge_cases n 8) as [H|H].
  - replace (n - 8) with 0 by lia. rewrite (Nat.div_small n 8 H). reflexivity.
  - replace n with ((n - 8) + 1 * 8) at 2 by lia. rewrite Nat.div_add by lia. lia.
Qed.

(** Raising the bit offset by 8 drops exactly the first packed byte, so the
    offsets 0..7 of the sweep cover every byte alignment. *)
Theorem pack_bits_to_bytes_offset_shift (bitstr : pystr) (offset : nat) (lsb_first : bool) :
  forallb is_bit bitstr = true ->
  pack_bits_to_bytes bitstr (offset + 8) lsb_first
  = option_map (@tl Z) (pack_bits_to_bytes bitstr offset lsb_first).
Proof.
  intros Hb. unfold pack_bits_to_bytes.
  replace (offset + 8) with (8 + offset) by lia. rewrite <- skipn_skipn.
  set (s := skipn offset bitstr).
  assert (Hs : forallb is_bit s = true) by (apply forallb_skipn; exact Hb).
  destruct (pack_loop_spec lsb_first (length (skipn 8 s)) (skipn 8 s) (forallb_skipn _ 8 _ Hs))
    as [o1 [E1 [L1 N1]]].
  destruct (pack_loop_spec lsb_first (length s) s Hs) as [o2 [E2 [L2 N2]]].
  rewrite E1, E2. cbn [option_map]. f_equal.
  rewrite length_skipn in L1.
  assert (HL1 : length o1 = length s / 8 - 1).
  { rewrite L1, <- div8_sub8. apply Nat.min_r. apply Nat.Div0.div_le_upper_bound; lia. }
  assert (HL2 : length o2 = length s / 8).
  { rewrite L2. apply Nat.min_r. apply Nat.Div0.div_le_upper_bound; lia. }
  apply nth_error_ext. intros k. rewrite nth_error_tl.
  destruct (Nat.lt_ge_cases k (length o1)) as [Hk|Hk].
  - rewrite N1 by exact Hk. rewrite N2 by lia.
    rewrite skipn_skipn. replace (8 * k + 8) with (8 * S k) by lia. reflexivity.
  - rewrite (proj2 (nth_error_None o1 k)) by exact Hk.
    symmetry. apply nth_error_None. lia.
Qed.

Lemma pack_bits_to_bytes_offset_shift_witness :
  forallb is_bit (lit "0110011001100001") = true /\
  pack_bits_to_bytes (lit "0110011001100001") (0 + 8) false
  = option_map (@tl Z) (pack_bits_to_bytes (lit "0110011001100001") 0 false).
Proof.
  assert (H : forallb is_bit (lit "0110011001100001") = true) by (vm_compute; reflexivity).
  split; [exact H|exact (pack_bits_to_bytes_offset_shift _ 0 false H)].
Defined.

(** ** bit_candecoder.py : search_for_flag *)

Lemma decode_loop_stop (p rest : pystr) (f : nat) :
  forallb (fun c => printable c && negb (Ascii.eqb c "}"%char)) p = true ->
  length p + 1 <= f ->
  decode_loop f (flat_map format08b (p ++ ["}"%char]) ++ rest) false true = p ++ ["}"%char].
Proof.
  revert f; induction p as [|c p IH]; intros f Hp Hf.
  - destruct f as [|f]; [simpl in Hf; lia|]. reflexivity.
  - destruct f as [|f]; [simpl in Hf; lia|].
    cbn [forallb] in Hp. apply andb_true_iff in Hp as [Hc Hp].
    apply andb_true_iff in Hc as [Hpr Hnb].
    destruct (format08b_value c) as [Hv _].
    cbn [app flat_map]. rewrite <- app_assoc.
    cbn [decode_loop].
    replace (firstn 8 (format08b c ++ flat_map format08b (p ++ ["}"%char]) ++ rest))
      with (format08b c) by (symmetry; apply (firstn_len_app (format08b c))).
    replace (skipn 8 (format08b c ++ flat_map format08b (p ++ ["}"%char]) ++ rest))
      with (flat_map format08b (p ++ ["}"%char]) ++ rest)
      by (symmetry; apply (skipn_len_app (format08b c))).
    rewrite length_app, format08b_length.
    replace (8 + length (flat_map format08b (p ++ ["}"%char]) ++ rest) <? 8) with false
      by (symmetry; apply Nat.ltb_ge; lia).
    cbn [oriented]. rewrite Hv.
    assert (Hc : nat_of_ascii c < 256) by apply nat_ascii_bounded.
    unfold printable in Hpr. apply andb_true_iff in Hpr as [H1 H2].
    apply Nat.leb_le in H1. apply Nat.ltb_lt in H2.
    replace (Z.of_nat (nat_of_ascii c) =? 125)%Z with false.
    2:{ symmetry. apply Z.eqb_neq. intros E.
        assert (nat_of_ascii c = 125) by lia.
        rewrite <- (ascii_nat_embedding c), H in Hnb. discriminate Hnb. }
    replace ((32 <=? Z.of_nat (nat_of_ascii c)) && (Z.of_nat (nat_of_ascii c) <=? 126))%Z
      with true by (symmetry; apply andb_true_iff; split; apply Z.leb_le; lia).
    cbn [andb]. rewrite Nat2Z.id, ascii_nat_embedding, (IH f Hp) by (simpl in Hf; lia).
    reflexivity.
Qed.

Lemma flat_map_length_8 (s : pystr) : length (flat_map format08b s) = 8 * length s.
Proof.
  induction s as [|c s IH]; [reflexivity|]. cbn [flat_map length].
  rewrite length_app, IH, format08b_length. lia.
Qed.

(** [search_for_flag] finds a message written MSB first at the start of a
    bit string, whatever follows it: for [M = 'flag{' + body + '}'] with a
    printable body without '}', it returns [(M, 0)]. *)
Theorem search_for_flag_finds_msb (body : pystr) (rest : pystr) :
  forallb (fun c => printable c && negb (Ascii.eqb c "}"%char)) body = true ->
  search_for_flag (flat_map format08b (lit "flag{" ++ body ++ ["}"%char]) ++ rest)
  = Some (lit "flag{" ++ body ++ ["}"%char], 0%Z).
Proof.
  intros Hb. unfold search_for_flag.
  set (bits := flat_map format08b (lit "flag{" ++ body ++ ["}"%char]) ++ rest).
  assert (Hsplit : bits = flat_map format08b (lit "flag") ++
                          (flat_map format08b ("{"%char :: body ++ ["}"%char]) ++ rest)).
  { unfold bits. rewrite (app_assoc (flat_map format08b (lit "flag"))), <- flat_map_app. reflexivity. }
  rewrite (find_from_head _ bits 0) by (rewrite Hsplit; apply startswith_app_self).
  cbn [skipn]. unfold decode_bits_to_string.
  assert (Hd : decode_loop (length bits) bits false true = lit "flag{" ++ body ++ ["}"%char]).
  { unfold bits. rewrite app_assoc.
    apply decode_loop_stop.
    - rewrite forallb_app, Hb. reflexivity.
    - rewrite (length_app (flat_map format08b _) rest), flat_map_length_8, !length_app. cbn [length]. lia. }
  rewrite Hd.
  replace (startswith (lit "flag{" ++ body ++ ["}"%char]) (lit "flag")) with true
    by (symmetry; change (lit "flag{") with (lit "flag" ++ ["{"%char]);
        rewrite <- app_assoc; apply startswith_app_self).
  replace (py_contains (lit "flag{" ++ body ++ ["}"%char]) "}"%char) with true.
  2:{ symmetry. unfold py_contains. apply existsb_exists. exists "}"%char.
      split; [apply in_or_app; right; apply in_or_app; right; left; reflexivity|].
      apply Ascii.eqb_refl. }
  reflexivity.
Qed.

Lemma search_for_flag_finds_msb_witness :
  forallb (fun c => printable c && negb (Ascii.eqb c "}"%char)) (lit "Hi") = true /\
  search_for_flag (flat_map format08b (lit "flag{" ++ lit "Hi" ++ ["}"%char]) ++ lit "0101")
  = Some (lit "flag{" ++ lit "Hi" ++ ["}"%char], 0%Z).
Proof.
  assert (H : forallb (fun c => printable c && negb (Ascii.eqb c "}"%char)) (lit "Hi") = true)
    by (vm_compute; reflexivity).
  split; [exact H|exact (search_for_flag_finds_msb _ _ H)].
Defined.

Lemma ascii_of_nat_brace (n : nat) : n < 256 -> ascii_of_nat n = "}"%char -> n = 125.
Proof.
  intros Hn E. rewrite <- (nat_ascii_embedding n Hn), E. reflexivity.
Qed.

Lemma decode_loop_stop_shape (f : nat) (s : pystr) (r : bool) :
  exists p, py_contains p "}"%char = false /\
    (decode_loop f s r true = p \/ decode_loop f s r true = p ++ ["}"%char]).
Proof.
  revert s; induction f as [|f IH]; intros s; [exists []; split; [reflexivity|left; reflexivity]|].
  cbn [decode_loop].
  destruct (length s <? 8); [exists []; split; [reflexivity|left; reflexivity]|].
  destruct (int_base2 (oriented r (firstn 8 s))) as [v|].
  - destruct ((v =? 125)%Z && true) eqn:E125; [exists []; split; [reflexivity|right; reflexivity]|].
    destruct ((32 <=? v) && (v <=? 126))%Z eqn:Ep; [|exists []; split; [reflexivity|left; reflexivity]].
    destruct (IH (skipn 8 s)) as [p [Hp Hor]].
    exists (ascii_of_nat (Z.to_nat v) :: p). split.
    + unfold py_contains in *. cbn [existsb]. rewrite Hp, orb_false_r.
      apply Bool.not_true_is_false. intros Ec. apply Ascii.eqb_eq in Ec. symmetry in Ec.
      apply andb_true_iff in Ep as [E1 E2]. apply Z.leb_le in E1. apply Z.leb_le in E2.
      apply ascii_of_nat_brace in Ec; [|lia].
      rewrite andb_true_r in E125. apply Z.eqb_neq in E125. lia.
    + destruct Hor as [-> | ->]; [left|right]; reflexivity.
  - destruct (IH (skipn 8 s)) as [p [Hp Hor]].
    exists ("?"%char :: p). split; [unfold py_contains in *; cbn [existsb]; rewrite Hp; reflexivity|].
    destruct Hor as [-> | ->]; [left|right]; reflexivity.
Qed.

Lemma find_from_char (c : ascii) (hay : pystr) (i k : nat) :
  find_from [c] hay i = Some k -> i <= k /\ nth_error hay (k - i) = Some c.
Proof.
  revert i; induction hay as [|d hay IH]; intros i H; [discriminate|].
  cbn [find_from startswith] in H.
  destruct (Ascii.eqb c d) eqn:E; cbn [andb] in H.
  - injection H as <-. apply Ascii.eqb_eq in E. subst. split; [lia|].
    rewrite Nat.sub_diag. reflexivity.
  - destruct (IH (S i) H) as [H1 H2]. split; [lia|].
    replace (k - i) with (S (k - S i)) by lia. exact H2.
Qed.

Lemma firstn_S_nth {A} (l : list A) (j : nat) (x : A) :
  nth_error l j = Some x -> firstn (S j) l = firstn j l ++ [x].
Proof.
  revert j; induction l as [|y l IH]; intros j H; [destruct j; discriminate|].
  destruct j as [|j]; [injection H as <-; reflexivity|].
  cbn [nth_error] in H. change (y :: firstn (S j) l = y :: (firstn j l ++ [x])). rewrite (IH j H). reflexivity.
Qed.

Lemma search_for_flag_ends_brace (bits flag : pystr) (pos : Z) :
  search_for_flag bits = Some (flag, pos) -> exists p, flag = p ++ ["}"%char].
Proof.
  unfold search_for_flag.
  destruct (find_from _ bits 0) as [q|].
  - unfold decode_bits_to_string.
    destruct (decode_loop_stop_shape (length (skipn q bits)) (skipn q bits) false) as [p [Hp Hor]].
    destruct (startswith (decode_loop _ (skipn q bits) false true) (lit "flag")
              && py_contains (decode_loop _ (skipn q bits) false true) "}"%char) eqn:Ech.
    + intros H. injection H as <- _.
      apply andb_true_iff in Ech as [_ Ec].
      destruct Hor as [Ed|Ed]; rewrite Ed in Ec |- *; [congruence|exists p; reflexivity].
    + cbv beta iota zeta. generalize (decode_loop (length bits) bits true false) as R. intros R.
      destruct (find_from (lit "flag{") (py_lower R) 0) as [fp|]; [|discriminate].
      destruct (find_from (lit "}") (skipn fp R) fp) as [ep|] eqn:Ee; [|discriminate].
      intros H. injection H as <- _.
      destruct (find_from_char _ _ _ _ Ee) as [Hle Hn].
      replace (ep + 1 - fp) with (S (ep - fp)) by lia.
      rewrite (firstn_S_nth _ _ _ Hn). eexists; reflexivity.
  - cbv beta iota zeta. generalize (decode_bits_to_string bits true false) as R. intros R.
    destruct (find_from (lit "flag{") (py_lower R) 0) as [fp|]; [|discriminate].
    destruct (find_from (lit "}") (skipn fp R) fp) as [ep|] eqn:Ee; [|discriminate].
    intros H. injection H as <- _.
    destruct (find_from_char _ _ _ _ Ee) as [Hle Hn].
    replace (ep + 1 - fp) with (S (ep - fp)) by lia.
    rewrite (firstn_S_nth _ _ _ Hn). eexists; reflexivity.
Qed.

(** Every flag [bit_candecoder] collects into [found_flags], from any list
    of methods, starts with 'flag' and ends with '}'. *)
Theorem bit_candecoder_found_flags_shape (methods : list (pystr * pystr)) (name flag : pystr) :
  In (name, flag) (flat_map snd (map try_method methods)) ->
  startswith flag (lit "flag") = true /\ exists p, flag = p ++ ["}"%char].
Proof.
  intros H. apply in_flat_map in H as [x [Hx Hin]].
  apply in_map_iff in Hx as [[nm bits] [<- _]].
  unfold try_method in Hin.
  destruct (search_for_flag bits) as [[f1 p1]|] eqn:E1.
  - destruct (flag_ok f1) eqn:Ok1.
    + destruct Hin as [Hin|[]]. injection Hin as _ <-.
      unfold flag_ok in Ok1. apply andb_true_iff in Ok1 as [_ Ok1].
      split; [exact Ok1|exact (search_for_flag_ends_brace _ _ _ E1)].
    + destruct (search_for_flag (rev bits)) as [[f2 p2]|] eqn:E2; [|destruct Hin].
      destruct (flag_ok f2) eqn:Ok2; [|destruct Hin].
      destruct Hin as [Hin|[]]. injection Hin as _ <-.
      unfold flag_ok in Ok2. apply andb_true_iff in Ok2 as [_ Ok2].
      split; [exact Ok2|exact (search_for_flag_ends_brace _ _ _ E2)].
  - destruct (search_for_flag (rev bits)) as [[f2 p2]|] eqn:E2; [|destruct Hin].
    destruct (flag_ok f2) eqn:Ok2; [|destruct Hin].
    destruct Hin as [Hin|[]]. injection Hin as _ <-.
    unfold flag_ok in Ok2. apply andb_true_iff in Ok2 as [_ Ok2].
    split; [exact Ok2|exact (search_for_flag_ends_brace _ _ _ E2)].
Qed.

Lemma bit_candecoder_found_flags_shape_witness :
  In (lit "M", lit "flag{A}")
     (flat_map snd (map try_method [(lit "M", flat_map format08b (lit "flag{A}"))])) /\
  startswith (lit "flag{A}") (lit "flag") = true /\ exists p, lit "flag{A}" = p ++ ["}"%char].
Proof.
  assert (H : In (lit "M", lit "flag{A}")
                 (flat_map snd (map try_method [(lit "M", flat_map format08b (lit "flag{A}"))])))
    by (vm_compute; left; reflexivity).
  split; [exact H|exact (bit_candecoder_found_flags_shape _ _ _ H)].
Defined.

(** ** time_decode.py : what extract_flag returns *)

Lemma In_firstn_l {A} (n : nat) (l : list A) (x : A) : In x (firstn n l) -> In x l.
Proof. intros H. rewrite <- (firstn_skipn n l). apply in_or_app. left. exact H. Qed.

Lemma In_skipn_l {A} (n : nat) (l : list A) (x : A) : In x (skipn n l) -> In x l.
Proof. intros H. rewrite <- (firstn_skipn n l). apply in_or_app. right. exact H. Qed.

Lemma collect_sound (l : pystr) :
  (forall c, In c (collect_to_brace l) -> In c l /\ c <> "."%char) /\
  (py_contains (collect_to_brace l) "}"%char = true ->
     exists p, collect_to_brace l = p ++ ["}"%char]) /\
  (In "}"%char l -> py_contains (collect_to_brace l) "}"%char = true).
Proof.
  induction l as [|c r [IH1 [IH2 IH3]]]; [split; [intros c []|split; [discriminate|intros []]]|].
  cbn [collect_to_brace].
  destruct (Ascii.eqb c "}"%char) eqn:Eb.
  - apply Ascii.eqb_eq in Eb; subst c. split; [|split].
    + intros d [<-|[]]. split; [left; reflexivity|discriminate].
    + intros _. exists []. reflexivity.
    + intros _. reflexivity.
  - apply Ascii.eqb_neq in Eb.
    destruct (Ascii.eqb c "."%char) eqn:Ed.
    + apply Ascii.eqb_eq in Ed; subst c. split; [|split].
      * intros d Hd. destruct (IH1 d Hd) as [H1 H2]. split; [right; exact H1|exact H2].
      * exact IH2.
      * intros [E|H]; [discriminate E|exact (IH3 H)].
    + apply Ascii.eqb_neq in Ed. split; [|split].
      * intros d [<-|Hd]; [split; [left; reflexivity|exact Ed]|].
        destruct (IH1 d Hd) as [H1 H2]. split; [right; exact H1|exact H2].
      * unfold py_contains. cbn [existsb].
        replace (Ascii.eqb "}"%char c) with false
          by (symmetry; apply Ascii.eqb_neq; intros E; apply Eb; symmetry; exact E).
        cbn [orb]. intros H. destruct (IH2 H) as [p Hp]. exists (c :: p). rewrite Hp. reflexivity.
      * intros [E|H]; [congruence|].
        unfold py_contains in *. cbn [existsb]. rewrite (IH3 H). apply orb_true_r.
Qed.

Lemma sequential_match_sound (s : pystr) (pos n : nat) (r : pystr) :
  sequential_match s pos n = Some r ->
  startswith r (lit "flag") = true /\ (exists p, r = p ++ ["}"%char]) /\
  forall c, In c r -> In c s /\ c <> "."%char.
Proof.
  unfold sequential_match.
  destruct (collect_sound (firstn n (skipn pos s))) as [H1 [H2 _]].
  destruct (startswith _ (lit "flag") && py_contains _ "}"%char) eqn:E; [|discriminate].
  intros H. injection H as <-. apply andb_true_iff in E as [Es Ec].
  split; [exact Es|split; [exact (H2 Ec)|]].
  intros c Hc. destruct (H1 c Hc) as [Hin Hd].
  split; [exact (In_skipn_l _ _ _ (In_firstn_l _ _ _ Hin))|exact Hd].
Qed.

Lemma startswith_app_prefix (s p q : pystr) : startswith s (p ++ q) = true -> startswith s p = true.
Proof.
  revert s; induction p as [|c p IH]; intros s H; [reflexivity|].
  destruct s as [|d s]; [discriminate|].
  cbn [app startswith] in *. apply andb_true_iff in H as [H1 H2].
  rewrite H1. exact (IH s H2).
Qed.

Lemma forward_match_sound (s : pystr) (n : nat) (r : pystr) :
  forward_match s n = Some r ->
  startswith r (lit "flag") = true /\ (exists p, r = p ++ ["}"%char]) /\
  forall c, In c r -> In c s /\ c <> "."%char.
Proof.
  unfold forward_match. cbv zeta.
  destruct (find_from (lit "}") s 0) as [k|] eqn:Ek.
  2:{ replace (py_find s (lit "}")) with (-1)%Z by (unfold py_find; rewrite Ek; reflexivity).
      rewrite andb_false_r. discriminate. }
  replace (py_find s (lit "}")) with (Z.of_nat k) by (unfold py_find; rewrite Ek; reflexivity).
  rewrite Z_of_nat_neq_m1, andb_true_r.
  destruct (negb (py_find (py_lower s) (lit "flag{") =? -1)%Z); [|discriminate].
  destruct (Z.of_nat k <? py_find (py_lower s) (lit "flag{"))%Z;
    [|intros H; exact (sequential_match_sound _ _ _ _ H)].
  change (lit "}") with ["}"%char] in Ek.
  destruct (find_from_char _ _ _ _ Ek) as [_ Hk]. rewrite Nat.sub_0_r in Hk.
  assert (Hlt : k < length s) by (apply nth_error_Some; congruence).
  rewrite Nat2Z.id. replace (Nat.min (k + 1) (length s)) with (S k) by lia.
  set (ending := strip_placeholders (skipn _ s)).
  assert (Hin : In "}"%char (firstn (S k) s))
    by (rewrite (firstn_S_nth _ _ _ Hk); apply in_or_app; right; left; reflexivity).
  set (fk := firstn (S k) s) in *.
  destruct (collect_sound fk) as [H1 [H2 H3]].
  destruct (startswith (ending ++ collect_to_brace fk) (lit "flag{")
            && py_contains (ending ++ collect_to_brace fk) "}"%char) eqn:E;
    [|discriminate].
  intros H. injection H as <-. apply andb_true_iff in E as [Es _].
  split; [|split].
  - change (lit "flag{") with (lit "flag" ++ ["{"%char]) in Es.
    exact (startswith_app_prefix _ _ _ Es).
  - destruct (H2 (H3 Hin)) as [p Hp]. rewrite Hp, app_assoc. eexists; reflexivity.
  - intros c Hc. apply in_app_or in Hc as [Hc|Hc].
    + unfold ending, strip_placeholders in Hc. apply filter_In in Hc as [Hc Hd].
      split; [exact (In_skipn_l _ _ _ Hc)|].
      intros E; subst c; discriminate Hd.
    + destruct (H1 c Hc) as [Hi Hd]. split; [exact (In_firstn_l _ _ _ Hi)|exact Hd].
Qed.

Lemma extract_flag_sound_core (bs : list Z) (n : nat) (r : pystr) :
  extract_flag bs n = Some r ->
  startswith r (lit "flag") = true /\ (exists p, r = p ++ ["}"%char]) /\
  forall c, In c r -> In c (decode_bytes bs) /\ c <> "."%char.
Proof.
  unfold extract_flag.
  destruct (forward_match (decode_bytes bs) n) as [r'|] eqn:Ef.
  - intros H. injection H as <-. exact (forward_match_sound _ _ _ Ef).
  - unfold reversed_match.
    destruct (negb _); [|discriminate].
    intros H. destruct (sequential_match_sound _ _ _ _ H) as [H1 [H2 H3]].
    split; [exact H1|split; [exact H2|]].
    intros c Hc. destruct (H3 c Hc) as [Hin Hd]. split; [|exact Hd].
    unfold decode_bytes in Hin |- *. rewrite map_rev in Hin. apply in_rev in Hin. exact Hin.
Qed.

Lemma decode_bytes_char (bs : list Z) (c : ascii) :
  In c (decode_bytes bs) -> c <> "."%char ->
  exists b, In b bs /\ (32 <= b < 127)%Z /\ nat_of_ascii c = Z.to_nat b.
Proof.
  intros H Hd. unfold decode_bytes in H. apply in_map_iff in H as [b [Eb Hb]].
  exists b. split; [exact Hb|]. unfold chr_or_dot in Eb.
  destruct ((32 <=? b) && (b <? 127))%Z eqn:E; [|congruence].
  apply andb_true_iff in E as [E1 E2]. apply Z.leb_le in E1. apply Z.ltb_lt in E2.
  split; [lia|]. rewrite <- Eb. apply nat_ascii_embedding. lia.
Qed.

(** Whatever [extract_flag] returns starts with 'flag', ends with '}', and
    consists of printable characters of the decoded buffer, never the
    placeholder '.'. *)
Theorem extract_flag_result_shape (bs : list Z) (max_search : nat) (r : pystr) :
  extract_flag bs max_search = Some r ->
  startswith r (lit "flag") = true /\ (exists p, r = p ++ ["}"%char]) /\
  forall c, In c r -> printable c = true /\ c <> "."%char /\ In c (decode_bytes bs).
Proof.
  intros H. destruct (extract_flag_sound_core bs max_search r H) as [H1 [H2 H3]].
  split; [exact H1|split; [exact H2|]].
  intros c Hc. destruct (H3 c Hc) as [Hin Hd].
  destruct (decode_bytes_char bs c Hin Hd) as [b [_ [Hb Ec]]].
  split; [|split; [exact Hd|exact Hin]].
  unfold printable. rewrite Ec. apply andb_true_iff; split; [apply Nat.leb_le|apply Nat.ltb_lt]; lia.
Qed.

Lemma extract_flag_result_shape_witness :
  extract_flag (to_bytes (lit "ab}flag{x")) 200 = Some (lit "flag{xab}") /\
  startswith (lit "flag{xab}") (lit "flag") = true /\ (exists p, lit "flag{xab}" = p ++ ["}"%char]) /\
  forall c, In c (lit "flag{xab}") ->
    printable c = true /\ c <> "."%char /\ In c (decode_bytes (to_bytes (lit "ab}flag{x"))).
Proof.
  assert (H : extract_flag (to_bytes (lit "ab}flag{x")) 200 = Some (lit "flag{xab}"))
    by (vm_compute; reflexivity).
  split; [exact H|exact (extract_flag_result_shape _ _ _ H)].
Defined.

(** A buffer without the byte 125 ('}') never yields a message. *)
Theorem extract_flag_needs_brace_byte (bs : list Z) (max_search : nat) :
  (forall b, In b bs -> b <> 125%Z) -> extract_flag bs max_search = None.
Proof.
  intros Hno. destruct (extract_flag bs max_search) as [r|] eqn:E; [|reflexivity].
  exfalso. destruct (extract_flag_sound_core bs max_search r E) as [_ [[p Hp] H3]].
  assert (Hin : In "}"%char r) by (rewrite Hp; apply in_or_app; right; left; reflexivity).
  destruct (H3 _ Hin) as [Hd Hnd].
  destruct (decode_bytes_char bs _ Hd Hnd) as [b [Hb [Hr Ec]]].
  apply (Hno b Hb). change (nat_of_ascii "}"%char) with 125 in Ec. lia.
Qed.

Lemma extract_flag_needs_brace_byte_witness :
  (forall b, In b (to_bytes (lit "flag{abc")) -> b <> 125%Z) /\
  extract_flag (to_bytes (lit "flag{abc")) 200 = None.
Proof.
  assert (H : forall b, In b (to_bytes (lit "flag{abc")) -> b <> 125%Z).
  { intros b Hb. vm_compute in Hb. repeat (destruct Hb as [<-|Hb]; [discriminate|]). destruct Hb. }
  split; [exact H|exact (extract_flag_needs_brace_byte _ _ H)].
Defined.

(** ** bit_candecoder.py : decoding lengths *)

Lemma decode_loop_length (fuel : nat) (s : pystr) (r stop : bool) :
  length s / 8 <= fuel ->
  length (decode_loop fuel s r stop) <= length s / 8 /\
  (stop = false -> length (decode_loop fuel s r stop) = length s / 8).
Proof.
  revert s; induction fuel as [|f IH]; intros s Hf.
  - cbn [decode_loop length]. split; [lia|intros _; lia].
  - cbn [decode_loop].
    destruct (length s <? 8) eqn:E.
    + apply Nat.ltb_lt in E. rewrite (Nat.div_small _ _ E). cbn [length]. split; [lia|reflexivity].
    + apply Nat.ltb_ge in E.
      assert (Hsk : length (skipn 8 s) / 8 = length s / 8 - 1)
        by (rewrite length_skipn; apply div8_sub8).
      assert (H1 : 1 <= length s / 8)
        by (change 1 with (8 / 8); apply Nat.Div0.div_le_mono; lia).
      assert (Hb : length (skipn 8 s) / 8 <= f) by lia.
      destruct (IH (skipn 8 s) Hb) as [IA IB].
      destruct (int_base2 (oriented r (firstn 8 s))) as [v|].
      * destruct ((v =? 125)%Z && stop) eqn:Es.
        { cbn [length]. split; [lia|intros ->; rewrite andb_false_r in Es; discriminate]. }
        destruct ((32 <=? v) && (v <=? 126))%Z.
        { cbn [length]. split; [lia|intros Hs; rewrite (IB Hs); lia]. }
        destruct stop.
        { cbn [length]. split; [lia|discriminate]. }
        cbn [length]. split; [lia|intros Hs; rewrite (IB Hs); lia].
      * cbn [length]. split; [lia|intros Hs; rewrite (IB Hs); lia].
Qed.

(** [decode_bits_to_string] emits exactly one character per complete
    8-character chunk when it does not stop at '}', and at most that many
    when it does; a trailing partial chunk is dropped. *)
Theorem decode_bits_to_string_length (s : pystr) (reverse_each_byte : bool) :
  length (decode_bits_to_string s reverse_each_byte false) = length s / 8 /\
  length (decode_bits_to_string s reverse_each_byte true) <= length s / 8.
Proof.
  assert (Hf : length s / 8 <= length s)
    by (apply Nat.Div0.div_le_upper_bound; lia).
  unfold decode_bits_to_string. split.
  - exact (proj2 (decode_loop_length _ s reverse_each_byte false Hf) eq_refl).
  - exact (proj1 (decode_loop_length _ s reverse_each_byte true Hf)).
Qed.

(** ** bit_candecoder.py : frame classes and methods *)

(** The data-frame count of [main], [len(frames) - remote - empty], is the
    number of frames that are data frames, hence never negative. *)
Theorem data_frames_counts_data_frames (frames : list frame) :
  data_frames frames
  = Z.of_nat (length (filter (fun f : frame => is_data_frame (snd f)) frames)) /\
  (0 <= data_frames frames)%Z.
Proof.
  rewrite data_frames_count. split; [reflexivity|lia].
Qed.

Lemma presence_bits_cons (r e : ascii) (t d : pystr) (fs : list frame) :
  presence_bits r e ((t, d) :: fs)
  = (if is_data_frame d then [] else if is_remote_frame d then [r] else [e])
    ++ presence_bits r e fs.
Proof. reflexivity. Qed.

(** Methods 2 and 3 read the same frames: both give one bit per remote or
    empty frame, and the Method 3 string is the bitwise complement of the
    Method 2 string. *)
Theorem presence_bits_complementary (frames : list frame) :
  presence_bits "0"%char "1"%char frames
  = map (fun c => if Ascii.eqb c "1"%char then "0"%char else "1"%char)
        (presence_bits "1"%char "0"%char frames) /\
  length (presence_bits "1"%char "0"%char frames) = remote_frames frames + empty_frames frames.
Proof.
  unfold remote_frames, empty_frames.
  induction frames as [|[t d] fs [IH1 IH2]]; [split; reflexivity|].
  rewrite !presence_bits_cons, map_app, <- IH1. cbn [filter snd].
  pose proof (frame_classes d) as Hc.
  destruct (is_data_frame d), (is_remote_frame d), (is_empty_frame d);
    cbn [app map length] in *; split; try reflexivity; try lia.
Qed.

Lemma pairs_bits_is_bit (l : pystr) : forallb is_bit (pairs_bits l) = true.
Proof.
  enough (H : forall n l, length l <= n -> forallb is_bit (pairs_bits l) = true)
    by exact (H _ l (le_n _)).
  induction n as [|n IH]; intros [|a [|b rest]] Hl; try reflexivity.
  - cbn [length] in Hl. lia.
  - cbn [length] in Hl. cbn [pairs_bits].
    destruct (py_int16_pair a b) as [v|]; [|apply IH; lia].
    cbn [forallb]. rewrite (IH rest) by lia.
    unfold lsb_char. destruct (Z.land v 1 =? 1)%Z; reflexivity.
Qed.

Lemma flat_map_is_bit {A} (g : A -> pystr) (l : list A) :
  (forall x, In x l -> forallb is_bit (g x) = true) -> forallb is_bit (flat_map g l) = true.
Proof.
  induction l as [|x l IH]; intros H; [reflexivity|].
  cbn [flat_map]. rewrite forallb_app, (H x (or_introl eq_refl)).
  apply IH. intros y Hy. exact (H y (or_intror Hy)).
Qed.

Lemma truthy_nonempty (s : pystr) : py_truthy s = true -> s <> [].
Proof. destruct s; [discriminate|intros _; discriminate]. Qed.

Lemma method_presence_bits (name : pystr) (r e : ascii) (frames : list frame) (n b : pystr) :
  is_bit r = true -> is_bit e = true -> In (n, b) (method_presence name r e frames) ->
  b <> [] /\ forallb is_bit b = true.
Proof.
  intros Hr He. unfold method_presence.
  destruct (_ && _); [|intros []].
  destruct (py_truthy (presence_bits r e frames)) eqn:T; [|intros []].
  intros [H|[]]. injection H as <- <-. split; [exact (truthy_nonempty _ T)|].
  unfold presence_bits. apply flat_map_is_bit. intros [t d] _.
  destruct (is_data_frame d); [reflexivity|].
  destruct (is_remote_frame d); cbn [forallb]; rewrite ?Hr, ?He; reflexivity.
Qed.

(** Every bit string [main] tries is non-empty and made of '0' and '1'
    only. *)
Theorem collect_methods_bit_strings (frames : list frame) (name bits : pystr) :
  In (name, bits) (collect_methods frames) -> bits <> [] /\ forallb is_bit bits = true.
Proof.
  unfold collect_methods. rewrite !in_app_iff. intros [H|[H|[H|H]]].
  - destruct (method1 frames) as [b|] eqn:E; [|destruct H].
    destruct H as [H|[]]. injection H as <- <-.
    rewrite method1_alt in E. destruct (py_truthy (method1_bits frames)) eqn:T; [|discriminate].
    injection E as <-. split; [exact (truthy_nonempty _ T)|].
    unfold method1_bits. apply flat_map_is_bit. intros [t d] _. unfold frame_lsb_bits.
    destruct (is_data_frame d); [apply pairs_bits_is_bit|reflexivity].
  - exact (method_presence_bits _ "1"%char "0"%char _ _ _ eq_refl eq_refl H).
  - exact (method_presence_bits _ "0"%char "1"%char _ _ _ eq_refl eq_refl H).
  - destruct (0 <? empty_frames frames); [|destruct H].
    destruct (py_truthy (method4_bits frames)) eqn:T; [|destruct H].
    destruct H as [H|[]]. injection H as <- <-. split; [exact (truthy_nonempty _ T)|].
    unfold method4_bits. apply flat_map_is_bit. intros [t d] _.
    destruct (is_remote_frame d); [reflexivity|].
    destruct (is_empty_frame d); [reflexivity|apply pairs_bits_is_bit].
Qed.

Lemma collect_methods_bit_strings_witness :
  In (lit "Method 2: R=1, Empty=0", lit "10")
     (collect_methods [(lit "0.1", lit "R"); (lit "0.2", [])]) /\
  lit "10" <> [] /\ forallb is_bit (lit "10") = true.
Proof.
  assert (H : In (lit "Method 2: R=1, Empty=0", lit "10")
                 (collect_methods [(lit "0.1", lit "R"); (lit "0.2", [])]))
    by (vm_compute; left; reflexivity).
  split; [exact H|exact (collect_methods_bit_strings _ _ _ H)].
Defined.

Lemma pairs_bits_hex_length (n : nat) (l : pystr) :
  length l = 2 * n -> forallb is_hex l = true -> length (pairs_bits l) = n.
Proof.
  revert l; induction n as [|n IH]; intros l Hl Hh.
  - destruct l; [reflexivity|cbn [length] in Hl; lia].
  - destruct l as [|a [|b rest]]; cbn [length] in Hl; try lia.
    cbn [forallb] in Hh. apply andb_true_iff in Hh as [Ha Hh].
    apply andb_true_iff in Hh as [Hb Hh].
    cbn [pairs_bits]. unfold is_hex in Ha, Hb. unfold py_int16_pair.
    destruct (hex_digit a); [|discriminate]. destruct (hex_digit b); [|discriminate].
    cbn [length]. rewrite (IH rest) by (lia || exact Hh). reflexivity.
Qed.

(** A non-empty payload of hexadecimal digits is a data frame, and Method 1
    takes one bit from each of its bytes after the odd-length padding:
    [ceil(len(data) / 2)] bits. *)
Theorem frame_lsb_bits_hex_length (timestamp data : pystr) :
  data <> [] -> forallb is_hex data = true ->
  is_data_frame data = true /\ length (frame_lsb_bits (timestamp, data)) = (length data + 1) / 2.
Proof.
  intros Hne Hh.
  assert (Hd : is_data_frame data = true).
  { destruct data as [|c r]; [congruence|].
    cbn [forallb] in Hh. apply andb_true_iff in Hh as [Hc _].
    unfold is_data_frame, is_remote_frame, is_empty_frame, pystr_eqb. cbn [py_truthy forallb].
    destruct (list_eq_dec ascii_dec (c :: r) (lit "R")) as [E|_].
    { injection E as -> _. discriminate Hc. }
    destruct (py_isspace c) eqn:Es; [|reflexivity].
    unfold is_hex in Hc. rewrite (space_not_hex c Es) in Hc. discriminate Hc. }
  split; [exact Hd|]. unfold frame_lsb_bits. rewrite Hd. unfold pad.
  destruct (Nat.odd (length data)) eqn:Eo.
  - apply Nat.odd_spec in Eo as [m Hm].
    rewrite (pairs_bits_hex_length (S m)).
    + rewrite Hm. replace (2 * m + 1 + 1) with (S m * 2) by lia.
      symmetry. apply Nat.div_mul. lia.
    + cbn [length]. lia.
    + cbn [forallb]. rewrite Hh. reflexivity.
  - assert (Ev : Nat.even (length data) = true) by (rewrite <- Nat.negb_odd, Eo; reflexivity).
    apply Nat.even_spec in Ev as [m Hm].
    rewrite (pairs_bits_hex_length m _ Hm Hh), Hm.
    replace (2 * m + 1) with (1 + m * 2) by lia.
    rewrite Nat.div_add by lia. reflexivity.
Qed.

Lemma frame_lsb_bits_hex_length_witness :
  lit "abc" <> [] /\ forallb is_hex (lit "abc") = true /\
  is_data_frame (lit "abc") = true /\
  length (frame_lsb_bits (lit "0.5", lit "abc")) = (length (lit "abc") + 1) / 2.
Proof.
  assert (H1 : lit "abc" <> []) by discriminate.
  assert (H2 : forallb is_hex (lit "abc") = true) by reflexivity.
  split; [exact H1|split; [exact H2|exact (frame_lsb_bits_hex_length _ _ H1 H2)]].
Defined.

(** ** bit_candecoder.py : the summary of main *)

Lemma try_method_found (m : pystr * pystr) :
  length (snd (try_method m)) <= 1 /\
  forall n f, In (n, f) (snd (try_method m)) ->
    exists pos, In (BcFound pos f) (fst (try_method m)) \/
                In (BcFoundReversed pos f) (fst (try_method m)).
Proof.
  destruct m as [name bits]. unfold try_method. cbv zeta.
  destruct (search_for_flag bits) as [[f p]|];
    [destruct (flag_ok f)|];
    try (destruct (search_for_flag (rev bits)) as [[f' p']|]; [destruct (flag_ok f')|]);
    cbn [fst snd length]; (split; [lia|]); intros n0 f0 H;
    try (destruct H as [H|[]]; injection H as <- <-; eexists;
         first [left; right; left; reflexivity | right; right; left; reflexivity]);
    destruct H.
Qed.

Lemma method_presence_length (name : pystr) (r e : ascii) (frames : list frame) :
  length (method_presence name r e frames) <= 1.
Proof.
  unfold method_presence. destruct (_ && _); [|cbn; lia].
  destruct (py_truthy _); cbn; lia.
Qed.

Lemma collect_methods_length (frames : list frame) : length (collect_methods frames) <= 4.
Proof.
  unfold collect_methods. rewrite !length_app.
  pose proof (method_presence_length (lit "Method 2: R=1, Empty=0") "1"%char "0"%char frames).
  pose proof (method_presence_length (lit "Method 3: R=0, Empty=1") "0"%char "1"%char frames).
  destruct (method1 frames); destruct (0 <? empty_frames frames);
    try destruct (py_truthy (method4_bits frames)); cbn [length]; lia.
Qed.

Lemma tries_found (ms : list (pystr * pystr)) :
  length (flat_map snd (map try_method ms)) <= length ms /\
  forall n f, In (n, f) (flat_map snd (map try_method ms)) ->
    exists pos, In (BcFound pos f) (flat_map fst (map try_method ms)) \/
                In (BcFoundReversed pos f) (flat_map fst (map try_method ms)).
Proof.
  induction ms as [|m ms [IH1 IH2]]; [split; [cbn; lia|intros n f []]|].
  destruct (try_method_found m) as [T1 T2].
  cbn [map flat_map]. rewrite length_app. split; [cbn [length]; lia|].
  intros n f H. apply in_app_or in H as [H|H].
  - destruct (T2 n f H) as [pos [P|P]]; exists pos; [left|right]; apply in_or_app; left; exact P.
  - destruct (IH2 n f H) as [pos [P|P]]; exists pos; [left|right]; apply in_or_app; right; exact P.
Qed.

(** For a non-empty frame list [main] exits with 0, its last report is the
    summary, the summary holds at most four flags, and each of them was
    announced by a 'FLAG FOUND' report (plain or reversed) before it. *)
Theorem bit_candecoder_main_summary (filename can_id : pystr) (frames : list frame) :
  frames <> [] ->
  exists evs found,
    bit_candecoder_main filename can_id frames = (evs ++ [BcSummary found], 0%Z) /\
    length found <= 4 /\
    forall n f, In (n, f) found ->
      exists pos, In (BcFound pos f) evs \/ In (BcFoundReversed pos f) evs.
Proof.
  intros Hne. destruct frames as [|f0 fs]; [congruence|].
  destruct (tries_found (collect_methods (f0 :: fs))) as [T1 T2].
  pose proof (collect_methods_length (f0 :: fs)) as Hl.
  unfold bit_candecoder_main. cbv zeta.
  set (ms := collect_methods (f0 :: fs)) in *.
  set (pre := [BcHeader filename can_id] ++
              [BcTotal (length (f0 :: fs));
               BcCounts (Z.of_nat (remote_frames (f0 :: fs)))
                 (Z.of_nat (empty_frames (f0 :: fs))) (data_frames (f0 :: fs))]
              ++ (if (0 <? data_frames (f0 :: fs))%Z then
                    map (fun f : frame => BcSample (fst f) (snd f))
                      (firstn 5 (filter (fun f : frame => is_data_frame (snd f)) (f0 :: fs)))
                  else []) ++ [BcTrying]).
  exists (pre ++ flat_map fst (map try_method ms)), (flat_map snd (map try_method ms)).
  split; [|split; [lia|]].
  - unfold pre. rewrite <- !app_assoc. reflexivity.
  - intros n f H. destruct (T2 n f H) as [pos [P|P]]; exists pos; [left|right];
      apply in_or_app; right; exact P.
Qed.

Lemma bit_candecoder_main_summary_witness :
  [(lit "0.1", lit "R")] <> [] /\
  exists evs found,
    bit_candecoder_main (lit "log") (lit "123") [(lit "0.1", lit "R")]
      = (evs ++ [BcSummary found], 0%Z) /\
    length found <= 4 /\
    forall n f, In (n, f) found ->
      exists pos, In (BcFound pos f) evs \/ In (BcFoundReversed pos f) evs.
Proof.
  assert (H : [(lit "0.1", lit "R")] <> []) by discriminate.
  split; [exact H|exact (bit_candecoder_main_summary _ _ _ H)].
Defined.
